(** * Employees, meetings, projects and assignments: the schema of
    [server/models.py] and the unit of work over it.

    [server/models.py] is a declarative schema: five tables, their columns
    and constraints, six relationships and two association proxies.  Each
    declaration is transcribed below as a value (Part 1).  The persisted
    state is the content of the five tables (Part 2).  Part 3 is the store
    executing single statements under the constraints the columns declare,
    Part 4 the unit of work that turns an operation on mapped objects into
    statements, driven by the relationship declarations (cascade options,
    [secondary], [back_populates], proxy creators).  Parts 5 to 7 are the
    lemmas, Part 8 the properties of the specification.

    A mapped object is identified with its row, and a reference to a mapped
    object with the primary key of that row: this is what a flush writes in
    a foreign-key column. *)

From Stdlib Require Import ZArith List String Ascii Bool Lia.
From Stdlib Require Import DecimalString DecimalZ.
Import ListNotations.
Open Scope string_scope.
Open Scope list_scope.
Open Scope Z_scope.

(* ================================================================== *)
(** * Part 1.  The declarations of [server/models.py] *)
(* ================================================================== *)

(** Column types used by the schema: [db.Integer], [db.String], [db.Date],
    [db.DateTime]. *)
Inductive ColumnType := Integer | String_ | Date | DateTime.

(** [db.Column(type, db.ForeignKey(target), primary_key=..., nullable=...)].
    [col_nullable_arg] is the [nullable] keyword as written; no column of
    this schema gives it. *)
Record Column := mkColumn {
  col_name : string;
  col_type : ColumnType;
  col_foreign_key : option string;
  col_primary_key : bool;
  col_nullable_arg : option bool
}.

(** A column without [nullable=] is nullable exactly when it is not part of
    the primary key. *)
Definition nullable (c : Column) : bool :=
  match col_nullable_arg c with
  | Some b => b
  | None => negb (col_primary_key c)
  end.

(** The [cascade] options of a relationship. *)
Inductive CascadeOption :=
  save_update | merge | refresh_expire | expunge | delete | delete_orphan.

Definition CascadeOption_eqb (a b : CascadeOption) : bool :=
  match a, b with
  | save_update, save_update | merge, merge | refresh_expire, refresh_expire
  | expunge, expunge | delete, delete | delete_orphan, delete_orphan => true
  | _, _ => false
  end.

(** ['all'] abbreviates every option but [delete-orphan]. *)
Definition all : list CascadeOption :=
  [save_update; merge; refresh_expire; expunge; delete].

(** The cascade of a relationship declared without [cascade=]. *)
Definition default_cascade : list CascadeOption := [save_update; merge].

(** [db.relationship(argument, secondary=..., back_populates=..., cascade=...)];
    [rel_secondary] is the name of the association table. *)
Record Relationship := mkRelationship {
  rel_argument : string;
  rel_secondary : option string;
  rel_back_populates : string;
  rel_cascade : list CascadeOption
}.

Definition has_cascade (o : CascadeOption) (r : Relationship) : bool :=
  existsb (CascadeOption_eqb o) (rel_cascade r).

(** Values of [db.Date] and [db.DateTime] columns. *)
Definition date : Type := Z * Z * Z.
Definition datetime : Type := date * (Z * Z * Z).

(** [employee_meetings = db.Table('employees_meetings', ...)]: the two
    columns, both foreign keys, both part of the primary key. *)
Module employee_meetings.
Definition name : string := "employees_meetings".
Module c.
Definition employee_id : Column :=
    mkColumn "employee_id" Integer (Some "employees.id") true None.
Definition meeting_id : Column :=
    mkColumn "meeting_id" Integer (Some "meetings.id") true None.
End c.
End employee_meetings.

(** [class Assignment(db.Model)].  The class comes last in the source; it is
    first here because the proxy creators of [Employee] and [Project] build
    assignments. *)
Module Assignment.
Definition __tablename__ : string := "assignments".

Record t := mk {
  id : Z;
  role : option string;
  start_date : option datetime;
  end_date : option datetime;
  employee_id : option Z;
  project_id : option Z
}.

Module c.
Definition id : Column := mkColumn "id" Integer None true None.
Definition role : Column := mkColumn "role" String_ None false None.
Definition start_date : Column := mkColumn "start_date" DateTime None false None.
Definition end_date : Column := mkColumn "end_date" DateTime None false None.
Definition employee_id : Column :=
    mkColumn "employee_id" Integer (Some "employees.id") false None.
Definition project_id : Column :=
    mkColumn "project_id" Integer (Some "projects.id") false None.
End c.

Definition employee : Relationship :=
  mkRelationship "Employee" None "assignments" default_cascade.
Definition project : Relationship :=
  mkRelationship "Project" None "assignments" default_cascade.

(** An object built by the constructor and not yet flushed: the keyword
    arguments, every attribute left out being [None].  [employee] and
    [project] are the relationship attributes; the flush copies the
    primary key of the object they hold into [employee_id] and
    [project_id]. *)
Record pending := new {
  p_role : option string;
  p_start_date : option datetime;
  p_end_date : option datetime;
  p_employee : option Z;
  p_project : option Z
}.
End Assignment.

(** [association_proxy(target_collection, attr, creator=...)]. *)
Record AssociationProxy := association_proxy {
  target_collection : string;
  attr : string;
  creator : Z -> Assignment.pending
}.

(** [class Employee(db.Model)]. *)
Module Employee.
Definition __tablename__ : string := "employees".

Record t := mk {
  id : Z;
  name : option string;
  hire_date : option date
}.

Module c.
Definition id : Column := mkColumn "id" Integer None true None.
Definition name : Column := mkColumn "name" String_ None false None.
Definition hire_date : Column := mkColumn "hire_date" Date None false None.
End c.

Definition meetings : Relationship :=
  mkRelationship "Meeting" (Some employee_meetings.name) "employees" default_cascade.

Definition assignments : Relationship :=
  mkRelationship "Assignment" None "employee" (all ++ [delete_orphan]).

(** [creator=lambda project_obj: Assignment(project=project_obj)]. *)
Definition projects : AssociationProxy :=
  association_proxy "assignments" "project"
    (fun project_obj => Assignment.new None None None None (Some project_obj)).
End Employee.

(** [class Meeting(db.Model)]. *)
Module Meeting.
Definition __tablename__ : string := "meetings".

Record t := mk {
  id : Z;
  topic : option string;
  scheduled_time : option datetime;
  location : option string
}.

Module c.
Definition id : Column := mkColumn "id" Integer None true None.
Definition topic : Column := mkColumn "topic" String_ None false None.
Definition scheduled_time : Column :=
    mkColumn "scheduled_time" DateTime None false None.
Definition location : Column := mkColumn "location" String_ None false None.
End c.

Definition employees : Relationship :=
  mkRelationship "Employee" (Some employee_meetings.name) "meetings" default_cascade.
End Meeting.

(** [class Project(db.Model)]. *)
Module Project.
Definition __tablename__ : string := "projects".

Record t := mk {
  id : Z;
  title : option string;
  budget : option Z
}.

Module c.
Definition id : Column := mkColumn "id" Integer None true None.
Definition title : Column := mkColumn "title" String_ None false None.
Definition budget : Column := mkColumn "budget" Integer None false None.
End c.

Definition assignments : Relationship :=
  mkRelationship "Assignment" None "project" (all ++ [delete_orphan]).

(** [creator=lambda employee_obj: Assignment(employee=employee_obj)]. *)
Definition employees : AssociationProxy :=
  association_proxy "assignments" "employee"
    (fun employee_obj => Assignment.new None None None (Some employee_obj) None).
End Project.

(* ================================================================== *)
(** * Part 2.  The persisted state *)
(* ================================================================== *)

(** The rows of the five tables, each in insertion order. *)
Record Store := mkStore {
  employees : list Employee.t;
  meetings : list Meeting.t;
  projects : list Project.t;
  assignments : list Assignment.t;
  employees_meetings : list (Z * Z)
}.

Definition empty_store : Store := mkStore [] [] [] [] [].

Definition employee_ids (s : Store) : list Z := map Employee.id (employees s).
Definition meeting_ids (s : Store) : list Z := map Meeting.id (meetings s).
Definition project_ids (s : Store) : list Z := map Project.id (projects s).
Definition assignment_ids (s : Store) : list Z := map Assignment.id (assignments s).

(** Fetching a row by primary key. *)
Definition get_employee (s : Store) (i : Z) : option Employee.t :=
  find (fun e => Employee.id e =? i) (employees s).
Definition get_meeting (s : Store) (i : Z) : option Meeting.t :=
  find (fun m => Meeting.id m =? i) (meetings s).
Definition get_project (s : Store) (i : Z) : option Project.t :=
  find (fun p => Project.id p =? i) (projects s).
Definition get_assignment (s : Store) (i : Z) : option Assignment.t :=
  find (fun a => Assignment.id a =? i) (assignments s).

Definition set_employees (s : Store) (l : list Employee.t) : Store :=
  mkStore l (meetings s) (projects s) (assignments s) (employees_meetings s).
Definition set_meetings (s : Store) (l : list Meeting.t) : Store :=
  mkStore (employees s) l (projects s) (assignments s) (employees_meetings s).
Definition set_projects (s : Store) (l : list Project.t) : Store :=
  mkStore (employees s) (meetings s) l (assignments s) (employees_meetings s).
Definition set_assignments (s : Store) (l : list Assignment.t) : Store :=
  mkStore (employees s) (meetings s) (projects s) l (employees_meetings s).
Definition set_employees_meetings (s : Store) (l : list (Z * Z)) : Store :=
  mkStore (employees s) (meetings s) (projects s) (assignments s) l.

(* ================================================================== *)
(** * Part 3.  The store: statements under the declared constraints *)
(* ================================================================== *)

Inductive Error :=
| ReferentialIntegrityError
| IntegrityError
| NotFoundError
| ValueError
| OverflowError.

Inductive result (A : Type) :=
| Ok (a : A)
| Err (e : Error).
Arguments Ok {A} a.
Arguments Err {A} e.

Definition bind {A B : Type} (r : result A) (k : A -> result B) : result B :=
  match r with
  | Ok a => k a
  | Err e => Err e
  end.

(** [require chk] fails with the error a check reports, if any. *)
Definition require (chk : option Error) : result unit :=
  match chk with
  | None => Ok tt
  | Some e => Err e
  end.

Notation "c ;; k" := (bind c (fun _ => k))
  (at level 61, right associativity).

(** An integer primary key left out of an INSERT is assigned by the store:
    one more than the largest key of the table, 1 for an empty table. *)
Definition next_id (ids : list Z) : Z := 1 + fold_right Z.max 0 ids.

(** The keys a [db.ForeignKey(target)] may take: the [id]s of the table
    [target] names. *)
Definition referred_ids (s : Store) (target : string) : list Z :=
  if String.eqb target (Employee.__tablename__ ++ ".id") then employee_ids s
  else if String.eqb target (Meeting.__tablename__ ++ ".id") then meeting_ids s
  else if String.eqb target (Project.__tablename__ ++ ".id") then project_ids s
  else if String.eqb target (Assignment.__tablename__ ++ ".id") then assignment_ids s
  else [].

(** Modelled from the spec: the persistence engine is not part of
    [server/models.py], which only declares the constraints.  Following
    sections 4.1 and 7 of the specification, a written value is checked
    against the declaration of its column: NULL is accepted in a nullable
    column only, and a value in a column declared with [db.ForeignKey] must
    be the [id] of a row of the referred table, or the write fails with
    [ReferentialIntegrityError]. *)
Definition check_value (s : Store) (c : Column) (v : option Z) : option Error :=
  match v with
  | None => if nullable c then None else Some IntegrityError
  | Some x =>
      match col_foreign_key c with
      | None => None
      | Some target =>
          if existsb (Z.eqb x) (referred_ids s target) then None
          else Some ReferentialIntegrityError
      end
  end.

(** A value the caller supplies for an attribute declared [db.Integer] is
    stored as a signed 64-bit integer; a value outside that range is
    refused with [OverflowError] when the statement is sent, and nothing is
    stored. *)
Definition check_integer (c : Column) (v : option Z) : option Error :=
  match col_type c, v with
  | Integer, Some x =>
      if (- 2 ^ 63 <=? x) && (x <? 2 ^ 63) then None else Some OverflowError
  | _, _ => None
  end.

(** The primary key of a row of [employees_meetings]: the values of the
    columns declared [primary_key=True]. *)
Definition pk_of (r : Z * Z) : list Z :=
  (if col_primary_key employee_meetings.c.employee_id then [fst r] else []) ++
  (if col_primary_key employee_meetings.c.meeting_id then [snd r] else []).

(** A row whose primary key is already in the table cannot be inserted. *)
Definition pk_conflict (s : Store) (r : Z * Z) : bool :=
  match pk_of r with
  | [] => false
  | k => existsb (fun r' => if list_eq_dec Z.eq_dec (pk_of r') k then true else false)
           (employees_meetings s)
  end.

(** [references c target v x]: the value [v] of column [c] is a foreign key
    into [target] holding [x]. *)
Definition references (c : Column) (target : string) (v : option Z) (x : Z) : bool :=
  match col_foreign_key c, v with
  | Some t, Some y => String.eqb t target && (y =? x)
  | _, _ => false
  end.

(** Modelled from the spec: the persistence engine is not part of
    [server/models.py].  No foreign key of the schema declares [ondelete],
    so following section 7 of the specification the store refuses, with
    [ReferentialIntegrityError], to delete a row that some foreign key still
    references; [referenced s target x] tells whether the row [x] of
    [target] is referenced. *)
Definition referenced (s : Store) (target : string) (x : Z) : bool :=
  existsb (fun a =>
      references Assignment.c.employee_id target (Assignment.employee_id a) x
      || references Assignment.c.project_id target (Assignment.project_id a) x)
    (assignments s)
  || existsb (fun r =>
      references employee_meetings.c.employee_id target (Some (fst r)) x
      || references employee_meetings.c.meeting_id target (Some (snd r)) x)
    (employees_meetings s).

(** The statements a flush emits. *)
Inductive Statement :=
| INSERT_employees (name : option string) (hire_date : option date)
| INSERT_meetings (topic : option string) (scheduled_time : option datetime)
    (location : option string)
| INSERT_projects (title : option string) (budget : option Z)
| INSERT_assignments (role : option string) (start_date end_date : option datetime)
    (employee_id project_id : option Z)
| INSERT_employees_meetings (employee_id meeting_id : Z)
| UPDATE_employees (id : Z) (name : option string) (hire_date : option date)
| UPDATE_meetings (id : Z) (topic : option string)
    (scheduled_time : option datetime) (location : option string)
| UPDATE_projects (id : Z) (title : option string) (budget : option Z)
| UPDATE_assignments (id : Z) (role : option string)
    (start_date end_date : option datetime) (employee_id project_id : option Z)
| DELETE_employees (id : Z)
| DELETE_meetings (id : Z)
| DELETE_projects (id : Z)
| DELETE_assignments (id : Z)
| DELETE_employees_meetings (employee_id meeting_id : Z).

(** One statement against the store: an INSERT appends a row under a
    system-assigned identifier, an UPDATE rewrites the attributes of the row
    with the given identifier, a DELETE removes it; each is subject to
    [check_value], [check_integer], [pk_conflict] and [referenced], and a
    statement whose WHERE selects no row changes nothing. *)
Definition execute (q : Statement) (s : Store) : result Store :=
  match q with
  | INSERT_employees n h =>
      Ok (set_employees s
            (employees s ++ [Employee.mk (next_id (employee_ids s)) n h]))
  | INSERT_meetings t st l =>
      Ok (set_meetings s
            (meetings s ++ [Meeting.mk (next_id (meeting_ids s)) t st l]))
  | INSERT_projects t b =>
      require (check_integer Project.c.budget b) ;;
      Ok (set_projects s
            (projects s ++ [Project.mk (next_id (project_ids s)) t b]))
  | INSERT_assignments r sd ed e p =>
      require (check_value s Assignment.c.employee_id e) ;;
      require (check_value s Assignment.c.project_id p) ;;
      Ok (set_assignments s
            (assignments s ++
               [Assignment.mk (next_id (assignment_ids s)) r sd ed e p]))
  | INSERT_employees_meetings e m =>
      require (check_value s employee_meetings.c.employee_id (Some e)) ;;
      require (check_value s employee_meetings.c.meeting_id (Some m)) ;;
      if pk_conflict s (e, m) then Err IntegrityError
      else Ok (set_employees_meetings s (employees_meetings s ++ [(e, m)]))
  | UPDATE_employees i n h =>
      Ok (set_employees s
            (map (fun x => if Employee.id x =? i then Employee.mk i n h else x)
               (employees s)))
  | UPDATE_meetings i t st l =>
      Ok (set_meetings s
            (map (fun x => if Meeting.id x =? i then Meeting.mk i t st l else x)
               (meetings s)))
  | UPDATE_projects i t b =>
      require (check_integer Project.c.budget b) ;;
      Ok (set_projects s
            (map (fun x => if Project.id x =? i then Project.mk i t b else x)
               (projects s)))
  | UPDATE_assignments i r sd ed e p =>
      if existsb (Z.eqb i) (assignment_ids s) then
        require (check_value s Assignment.c.employee_id e) ;;
        require (check_value s Assignment.c.project_id p) ;;
        Ok (set_assignments s
              (map (fun x => if Assignment.id x =? i
                             then Assignment.mk i r sd ed e p else x)
                 (assignments s)))
      else Ok s
  | DELETE_employees i =>
      if referenced s (Employee.__tablename__ ++ ".id") i
      then Err ReferentialIntegrityError
      else Ok (set_employees s
                 (filter (fun x => negb (Employee.id x =? i)) (employees s)))
  | DELETE_meetings i =>
      if referenced s (Meeting.__tablename__ ++ ".id") i
      then Err ReferentialIntegrityError
      else Ok (set_meetings s
                 (filter (fun x => negb (Meeting.id x =? i)) (meetings s)))
  | DELETE_projects i =>
      if referenced s (Project.__tablename__ ++ ".id") i
      then Err ReferentialIntegrityError
      else Ok (set_projects s
                 (filter (fun x => negb (Project.id x =? i)) (projects s)))
  | DELETE_assignments i =>
      Ok (set_assignments s
            (filter (fun x => negb (Assignment.id x =? i)) (assignments s)))
  | DELETE_employees_meetings e m =>
      Ok (set_employees_meetings s
            (filter (fun r => negb ((fst r =? e) && (snd r =? m)))
               (employees_meetings s)))
  end.

(** The statements of one transaction, in order; the first failure stops it. *)
Fixpoint execute_all (qs : list Statement) (s : Store) : result Store :=
  match qs with
  | [] => Ok s
  | q :: qs' => bind (execute q s) (execute_all qs')
  end.

(** [db.session.commit()]: the flushed statements take effect together, or
    the transaction is rolled back and the error raised. *)
Definition commit (qs : list Statement) (s : Store) : Store * option Error :=
  match execute_all qs s with
  | Ok s' => (s', None)
  | Err e => (s, Some e)
  end.

(* ================================================================== *)
(** * Part 4.  Mapped objects and the unit of work *)
(* ================================================================== *)

(** ** Loading relationships and proxies *)

Definition holds (v : option Z) (x : Z) : bool :=
  match v with
  | Some y => y =? x
  | None => false
  end.

(** [E.assignments]: the assignments whose [employee_id] is [E.id]. *)
Definition Employee_assignments (s : Store) (E : Employee.t) : list Assignment.t :=
  filter (fun a => holds (Assignment.employee_id a) (Employee.id E)) (assignments s).

(** [P.assignments]: the assignments whose [project_id] is [P.id]. *)
Definition Project_assignments (s : Store) (P : Project.t) : list Assignment.t :=
  filter (fun a => holds (Assignment.project_id a) (Project.id P)) (assignments s).

(** [a.employee] and [a.project]: the row the foreign key names, [None] for
    a NULL key. *)
Definition Assignment_employee (s : Store) (a : Assignment.t) : option Employee.t :=
  match Assignment.employee_id a with
  | Some e => get_employee s e
  | None => None
  end.

Definition Assignment_project (s : Store) (a : Assignment.t) : option Project.t :=
  match Assignment.project_id a with
  | Some p => get_project s p
  | None => None
  end.

(** [E.projects]: the proxy reads [a.project] of every [a] in
    [E.assignments]. *)
Definition Employee_projects (s : Store) (E : Employee.t) : list (option Project.t) :=
  map (Assignment_project s) (Employee_assignments s E).

(** [P.employees]: the proxy reads [a.employee] of every [a] in
    [P.assignments]. *)
Definition Project_employees (s : Store) (P : Project.t) : list (option Employee.t) :=
  map (Assignment_employee s) (Project_assignments s P).

(** [E.meetings] and [M.employees]: the join through [employees_meetings]. *)
Definition Employee_meetings (s : Store) (E : Employee.t) : list Meeting.t :=
  flat_map (fun r =>
      if fst r =? Employee.id E then
        match get_meeting s (snd r) with Some M => [M] | None => [] end
      else [])
    (employees_meetings s).

Definition Meeting_employees (s : Store) (M : Meeting.t) : list Employee.t :=
  flat_map (fun r =>
      if snd r =? Meeting.id M then
        match get_employee s (fst r) with Some E => [E] | None => [] end
      else [])
    (employees_meetings s).

(** ** Pieces of a flush *)

(** Setting a relationship attribute of a pending assignment by name. *)
Definition set_attr (attribute : string) (v : option Z) (a : Assignment.pending)
  : Assignment.pending :=
  if String.eqb attribute "employee" then
    Assignment.new (Assignment.p_role a) (Assignment.p_start_date a)
      (Assignment.p_end_date a) v (Assignment.p_project a)
  else if String.eqb attribute "project" then
    Assignment.new (Assignment.p_role a) (Assignment.p_start_date a)
      (Assignment.p_end_date a) (Assignment.p_employee a) v
  else a.

(** Appending a pending assignment to the collection [r] of the object
    [owner]: [back_populates] names the attribute of the assignment that
    receives the owner. *)
Definition collection_append (r : Relationship) (owner : Z) (a : Assignment.pending)
  : Assignment.pending :=
  set_attr (rel_back_populates r) (Some owner) a.

(** The INSERT of a pending assignment: the foreign keys are the primary
    keys of the objects its relationship attributes hold. *)
Definition insert_pending (a : Assignment.pending) : Statement :=
  INSERT_assignments (Assignment.p_role a) (Assignment.p_start_date a)
    (Assignment.p_end_date a) (Assignment.p_employee a) (Assignment.p_project a).

(** The UPDATE that detaches a persistent assignment from the parent of
    relationship [r]: the foreign key behind the attribute [back_populates]
    names is set to NULL. *)
Definition detach (r : Relationship) (a : Assignment.t) : Statement :=
  UPDATE_assignments (Assignment.id a) (Assignment.role a)
    (Assignment.start_date a) (Assignment.end_date a)
    (if String.eqb (rel_back_populates r) "employee" then None
     else Assignment.employee_id a)
    (if String.eqb (rel_back_populates r) "project" then None
     else Assignment.project_id a).

(** What a flush does with the assignments of a deleted parent: with
    [delete] in the cascade of [r] they are deleted, otherwise detached. *)
Definition dependents (r : Relationship) (children : list Assignment.t)
  : list Statement :=
  if has_cascade delete r
  then map (fun a => DELETE_assignments (Assignment.id a)) children
  else map (detach r) children.

(** What a flush does with an assignment removed from the collection [r]:
    with [delete-orphan] in the cascade it is deleted, otherwise detached. *)
Definition orphan (r : Relationship) (a : Assignment.t) : Statement :=
  if has_cascade delete_orphan r
  then DELETE_assignments (Assignment.id a)
  else detach r a.

(** A relationship with [secondary] owns its rows of the association table:
    the flush inserts and deletes them. *)
Definition secondary_insert (r : Relationship) (e m : Z) : list Statement :=
  match rel_secondary r with
  | Some _ => [INSERT_employees_meetings e m]
  | None => []
  end.

Definition secondary_delete (r : Relationship) (rows : list (Z * Z))
  : list Statement :=
  match rel_secondary r with
  | Some _ => map (fun x => DELETE_employees_meetings (fst x) (snd x)) rows
  | None => []
  end.

Definition linked (s : Store) (e m : Z) : bool :=
  existsb (fun r => (fst r =? e) && (snd r =? m)) (employees_meetings s).

Definition fail (s : Store) (e : Error) : Store * option Error := (s, Some e).

(** ** Operations, each followed by [db.session.commit()] *)

(** [db.session.add(X(...))] for the four classes; an [Assignment] may be
    given its foreign keys directly. *)
Definition add_Employee (n : option string) (h : option date) (s : Store) :=
  commit [INSERT_employees n h] s.

Definition add_Meeting (t : option string) (st : option datetime)
    (l : option string) (s : Store) :=
  commit [INSERT_meetings t st l] s.

Definition add_Project (t : option string) (b : option Z) (s : Store) :=
  commit [INSERT_projects t b] s.

Definition add_Assignment (r : option string) (sd ed : option datetime)
    (e p : option Z) (s : Store) :=
  commit [INSERT_assignments r sd ed e p] s.

(** Assigning the attributes of a fetched object. *)
Definition update_Employee (i : Z) (n : option string) (h : option date) (s : Store) :=
  match get_employee s i with
  | Some _ => commit [UPDATE_employees i n h] s
  | None => fail s NotFoundError
  end.

Definition update_Meeting (i : Z) (t : option string) (st : option datetime)
    (l : option string) (s : Store) :=
  match get_meeting s i with
  | Some _ => commit [UPDATE_meetings i t st l] s
  | None => fail s NotFoundError
  end.

Definition update_Project (i : Z) (t : option string) (b : option Z) (s : Store) :=
  match get_project s i with
  | Some _ => commit [UPDATE_projects i t b] s
  | None => fail s NotFoundError
  end.

Definition update_Assignment (i : Z) (r : option string) (sd ed : option datetime)
    (e p : option Z) (s : Store) :=
  match get_assignment s i with
  | Some _ => commit [UPDATE_assignments i r sd ed e p] s
  | None => fail s NotFoundError
  end.

(** [db.session.delete(E)]: the rows of the [secondary] table of
    [Employee.meetings] go, then the assignments of [Employee.assignments]
    as its cascade says, then the row of [E]. *)
Definition delete_Employee (e : Z) (s : Store) :=
  match get_employee s e with
  | Some E =>
      commit (secondary_delete Employee.meetings
                (filter (fun r => fst r =? Employee.id E) (employees_meetings s))
              ++ dependents Employee.assignments (Employee_assignments s E)
              ++ [DELETE_employees (Employee.id E)]) s
  | None => fail s NotFoundError
  end.

(** [db.session.delete(M)]. *)
Definition delete_Meeting (m : Z) (s : Store) :=
  match get_meeting s m with
  | Some M =>
      commit (secondary_delete Meeting.employees
                (filter (fun r => snd r =? Meeting.id M) (employees_meetings s))
              ++ [DELETE_meetings (Meeting.id M)]) s
  | None => fail s NotFoundError
  end.

(** [db.session.delete(P)]. *)
Definition delete_Project (p : Z) (s : Store) :=
  match get_project s p with
  | Some P =>
      commit (dependents Project.assignments (Project_assignments s P)
              ++ [DELETE_projects (Project.id P)]) s
  | None => fail s NotFoundError
  end.

(** [db.session.delete(a)]: the relationships of [Assignment] carry the
    default cascade, so nothing else is deleted. *)
Definition delete_Assignment (a : Z) (s : Store) :=
  match get_assignment s a with
  | Some A => commit [DELETE_assignments (Assignment.id A)] s
  | None => fail s NotFoundError
  end.

(** [E.projects.append(P)]: the creator of the proxy builds the assignment,
    which is appended to [E.assignments]. *)
Definition Employee_projects_append (e p : Z) (s : Store) :=
  match get_employee s e, get_project s p with
  | Some E, Some P =>
      commit [insert_pending
                (collection_append Employee.assignments (Employee.id E)
                   (creator Employee.projects (Project.id P)))] s
  | _, _ => fail s NotFoundError
  end.

(** [P.employees.append(E)]. *)
Definition Project_employees_append (p e : Z) (s : Store) :=
  match get_project s p, get_employee s e with
  | Some P, Some E =>
      commit [insert_pending
                (collection_append Project.assignments (Project.id P)
                   (creator Project.employees (Employee.id E)))] s
  | _, _ => fail s NotFoundError
  end.

(** [E.assignments.remove(a)]: [ValueError] when [a] is not in the
    collection. *)
Definition Employee_assignments_remove (e a : Z) (s : Store) :=
  match get_employee s e with
  | Some E =>
      match find (fun x => Assignment.id x =? a) (Employee_assignments s E) with
      | Some A => commit [orphan Employee.assignments A] s
      | None => fail s ValueError
      end
  | None => fail s NotFoundError
  end.

(** [P.assignments.remove(a)]. *)
Definition Project_assignments_remove (p a : Z) (s : Store) :=
  match get_project s p with
  | Some P =>
      match find (fun x => Assignment.id x =? a) (Project_assignments s P) with
      | Some A => commit [orphan Project.assignments A] s
      | None => fail s ValueError
      end
  | None => fail s NotFoundError
  end.

(** [E.projects.remove(P)]: the proxy removes from [E.assignments] the first
    assignment whose [project] is [P]. *)
Definition Employee_projects_remove (e p : Z) (s : Store) :=
  match get_employee s e, get_project s p with
  | Some E, Some P =>
      match find (fun x =>
                match Assignment_project s x with
                | Some P' => Project.id P' =? Project.id P
                | None => false
                end) (Employee_assignments s E) with
      | Some A => commit [orphan Employee.assignments A] s
      | None => fail s ValueError
      end
  | _, _ => fail s NotFoundError
  end.

(** [P.employees.remove(E)]. *)
Definition Project_employees_remove (p e : Z) (s : Store) :=
  match get_project s p, get_employee s e with
  | Some P, Some E =>
      match find (fun x =>
                match Assignment_employee s x with
                | Some E' => Employee.id E' =? Employee.id E
                | None => false
                end) (Project_assignments s P) with
      | Some A => commit [orphan Project.assignments A] s
      | None => fail s ValueError
      end
  | _, _ => fail s NotFoundError
  end.

(** [E.meetings.append(M)]: the flush inserts the row of the pair into the
    [secondary] table, whether or not the pair is there already. *)
Definition Employee_meetings_append (e m : Z) (s : Store) :=
  match get_employee s e, get_meeting s m with
  | Some E, Some M =>
      commit (secondary_insert Employee.meetings
                (Employee.id E) (Meeting.id M)) s
  | _, _ => fail s NotFoundError
  end.

(** [M.employees.append(E)]. *)
Definition Meeting_employees_append (m e : Z) (s : Store) :=
  match get_meeting s m, get_employee s e with
  | Some M, Some E =>
      commit (secondary_insert Meeting.employees
                (Employee.id E) (Meeting.id M)) s
  | _, _ => fail s NotFoundError
  end.

(** [E.meetings.remove(M)] and [M.employees.remove(E)]. *)
Definition Employee_meetings_remove (e m : Z) (s : Store) :=
  match get_employee s e, get_meeting s m with
  | Some E, Some M =>
      if linked s (Employee.id E) (Meeting.id M)
      then commit (secondary_delete Employee.meetings
                     [(Employee.id E, Meeting.id M)]) s
      else fail s ValueError
  | _, _ => fail s NotFoundError
  end.

Definition Meeting_employees_remove (m e : Z) (s : Store) :=
  match get_meeting s m, get_employee s e with
  | Some M, Some E =>
      if linked s (Employee.id E) (Meeting.id M)
      then commit (secondary_delete Meeting.employees
                     [(Employee.id E, Meeting.id M)]) s
      else fail s ValueError
  | _, _ => fail s NotFoundError
  end.

(** The operations of the application layer. *)
Inductive Operation :=
| AddEmployee (n : option string) (h : option date)
| AddMeeting (t : option string) (st : option datetime) (l : option string)
| AddProject (t : option string) (b : option Z)
| AddAssignment (r : option string) (sd ed : option datetime) (e p : option Z)
| UpdateEmployee (i : Z) (n : option string) (h : option date)
| UpdateMeeting (i : Z) (t : option string) (st : option datetime) (l : option string)
| UpdateProject (i : Z) (t : option string) (b : option Z)
| UpdateAssignment (i : Z) (r : option string) (sd ed : option datetime)
    (e p : option Z)
| DeleteEmployee (e : Z)
| DeleteMeeting (m : Z)
| DeleteProject (p : Z)
| DeleteAssignment (a : Z)
| EmployeeProjectsAppend (e p : Z)
| ProjectEmployeesAppend (p e : Z)
| EmployeeAssignmentsRemove (e a : Z)
| ProjectAssignmentsRemove (p a : Z)
| EmployeeProjectsRemove (e p : Z)
| ProjectEmployeesRemove (p e : Z)
| EmployeeMeetingsAppend (e m : Z)
| MeetingEmployeesAppend (m e : Z)
| EmployeeMeetingsRemove (e m : Z)
| MeetingEmployeesRemove (m e : Z).

Definition perform (op : Operation) (s : Store) : Store * option Error :=
  match op with
  | AddEmployee n h => add_Employee n h s
  | AddMeeting t st l => add_Meeting t st l s
  | AddProject t b => add_Project t b s
  | AddAssignment r sd ed e p => add_Assignment r sd ed e p s
  | UpdateEmployee i n h => update_Employee i n h s
  | UpdateMeeting i t st l => update_Meeting i t st l s
  | UpdateProject i t b => update_Project i t b s
  | UpdateAssignment i r sd ed e p => update_Assignment i r sd ed e p s
  | DeleteEmployee e => delete_Employee e s
  | DeleteMeeting m => delete_Meeting m s
  | DeleteProject p => delete_Project p s
  | DeleteAssignment a => delete_Assignment a s
  | EmployeeProjectsAppend e p => Employee_projects_append e p s
  | ProjectEmployeesAppend p e => Project_employees_append p e s
  | EmployeeAssignmentsRemove e a => Employee_assignments_remove e a s
  | ProjectAssignmentsRemove p a => Project_assignments_remove p a s
  | EmployeeProjectsRemove e p => Employee_projects_remove e p s
  | ProjectEmployeesRemove p e => Project_employees_remove p e s
  | EmployeeMeetingsAppend e m => Employee_meetings_append e m s
  | MeetingEmployeesAppend m e => Meeting_employees_append m e s
  | EmployeeMeetingsRemove e m => Employee_meetings_remove e m s
  | MeetingEmployeesRemove m e => Meeting_employees_remove m e s
  end.

(** The state after a sequence of operations, the failed ones leaving the
    store as it was. *)
Definition run (ops : list Operation) (s : Store) : Store :=
  fold_left (fun s op => fst (perform op s)) ops s.

(** The states the application can bring the store to. *)
Inductive reachable : Store -> Prop :=
| reachable_empty : reachable empty_store
| reachable_step s op : reachable s -> reachable (fst (perform op s)).

(** ** Vocabulary of the theorems *)

(** The declared constraints as a property of a state: the [id] of each
    table and the pair of [employees_meetings] are keys, and every foreign
    key that is not NULL names a row of the referred table.  The foreign-key
    fields carry the names the naming convention of the metadata gives the
    constraints. *)
Record consistent (s : Store) : Prop := mkConsistent {
  pk_employees : NoDup (employee_ids s);
  pk_meetings : NoDup (meeting_ids s);
  pk_projects : NoDup (project_ids s);
  pk_assignments : NoDup (assignment_ids s);
  pk_employees_meetings : NoDup (employees_meetings s);
  fk_assignments_employee_id_employees :
    forall a e, In a (assignments s) ->
      Assignment.employee_id a = Some e -> In e (employee_ids s);
  fk_assignments_project_id_projects :
    forall a p, In a (assignments s) ->
      Assignment.project_id a = Some p -> In p (project_ids s);
  fk_employees_meetings_employee_id_employees :
    forall r, In r (employees_meetings s) -> In (fst r) (employee_ids s);
  fk_employees_meetings_meeting_id_meetings :
    forall r, In r (employees_meetings s) -> In (snd r) (meeting_ids s)
}.

(** The row both proxies insert for the employee [e] and the project [p]:
    every attribute but the two foreign keys is left NULL. *)
Definition link (s : Store) (e p : Z) : Assignment.t :=
  Assignment.mk (next_id (assignment_ids s)) None None None (Some e) (Some p).

(** Every assignment references an existing employee and an existing
    project. *)
Definition strict_referential_integrity (s : Store) : Prop :=
  forall a, In a (assignments s) ->
    (exists E, In E (employees s) /\ Assignment.employee_id a = Some (Employee.id E)) /\
    (exists P, In P (projects s) /\ Assignment.project_id a = Some (Project.id P)).

(** Every foreign key of an assignment is NULL or references an existing
    row. *)
Definition referential_integrity (s : Store) : Prop :=
  forall a, In a (assignments s) ->
    (Assignment.employee_id a = None \/
     exists E, In E (employees s) /\ Assignment.employee_id a = Some (Employee.id E)) /\
    (Assignment.project_id a = None \/
     exists P, In P (projects s) /\ Assignment.project_id a = Some (Project.id P)).


(** Equality of rows of [employees_meetings] is decidable. *)
Definition row_eq_dec (x y : Z * Z) : {x = y} + {x <> y}.
Proof. decide equality; apply Z.eq_dec. Defined.

(** The two derived views through which an employee and a project are
    linked. *)
Inductive View := Employee_projects_view | Project_employees_view.

Definition append_through (v : View) (E : Employee.t) (P : Project.t) (s : Store)
  : Store * option Error :=
  match v with
  | Employee_projects_view =>
      Employee_projects_append (Employee.id E) (Project.id P) s
  | Project_employees_view =>
      Project_employees_append (Project.id P) (Employee.id E) s
  end.

(** ** The scenario of the specification *)

Definition john : Employee.t :=
  Employee.mk 1 (Some "John Doe") (Some (2022, 1, 1)).

Definition kickoff : Project.t :=
  Project.mk 1 (Some "Kickoff") (Some 10000).

Definition standup : Meeting.t :=
  Meeting.mk 1 (Some "Standup") (Some ((2024, 5, 24), (10, 0, 0))) (Some "Room A").

(** The three rows inserted, nothing linked yet. *)
Definition office : Store :=
  run [AddEmployee (Some "John Doe") (Some (2022, 1, 1));
       AddProject (Some "Kickoff") (Some 10000);
       AddMeeting (Some "Standup") (Some ((2024, 5, 24), (10, 0, 0)))
         (Some "Room A")]
    empty_store.

(** John assigned to the kickoff and invited to the standup. *)
Definition busy_office : Store :=
  run [EmployeeProjectsAppend 1 1; EmployeeMeetingsAppend 1 1] office.

(** ** The [__repr__] methods *)

(** [str] of an integer: decimal digits, ["-"] in front of a negative one. *)
Definition str_int (n : Z) : string := NilEmpty.string_of_int (Z.to_int n).

Fixpoint zeros (n : nat) : string :=
  match n with
  | O => EmptyString
  | S n' => String "0" (zeros n')
  end.

(** A field of a date or of a time, padded with zeros to [width] digits. *)
Definition zfill (width : nat) (n : Z) : string :=
  (zeros (width - String.length (str_int n)) ++ str_int n)%string.

(** [str] of a [date], [YYYY-MM-DD], and of a [datetime] of whole seconds,
    [YYYY-MM-DD HH:MM:SS]. *)
Definition str_date (d : date) : string :=
  let '(y, m, dd) := d in
  (zfill 4 y ++ "-" ++ zfill 2 m ++ "-" ++ zfill 2 dd)%string.

Definition str_datetime (t : datetime) : string :=
  let '(d, (h, mi, sec)) := t in
  (str_date d ++ " " ++ zfill 2 h ++ ":" ++ zfill 2 mi ++ ":" ++ zfill 2 sec)%string.

(** A replacement field of an f-string: [None] prints as ["None"]. *)
Definition str_option {A : Type} (str : A -> string) (v : option A) : string :=
  match v with
  | Some x => str x
  | None => "None"
  end.

Definition str_str (x : string) : string := x.

(** [Employee.__repr__]. *)
Definition Employee_repr (self : Employee.t) : string :=
  ("<Employee " ++ str_int (Employee.id self) ++ ", "
   ++ str_option str_str (Employee.name self) ++ ", "
   ++ str_option str_date (Employee.hire_date self) ++ ">")%string.

(** [Meeting.__repr__]. *)
Definition Meeting_repr (self : Meeting.t) : string :=
  ("<Meeting " ++ str_int (Meeting.id self) ++ ", "
   ++ str_option str_str (Meeting.topic self) ++ ", "
   ++ str_option str_datetime (Meeting.scheduled_time self) ++ ", "
   ++ str_option str_str (Meeting.location self) ++ ">")%string.

(** [Project.__repr__]; the source writes the label [Review]. *)
Definition Project_repr (self : Project.t) : string :=
  ("<Review " ++ str_int (Project.id self) ++ ", "
   ++ str_option str_str (Project.title self) ++ ", "
   ++ str_option str_int (Project.budget self) ++ ">")%string.

(** Reading an attribute of [None] raises [AttributeError]. *)
Inductive Exception := AttributeError.

(** [Assignment.__repr__]: it reads [self.employee.name] and
    [self.project.title], so it needs both relationships to hold an
    object. *)
Definition Assignment_repr (s : Store) (self : Assignment.t) : string + Exception :=
  match Assignment_employee s self with
  | None => inr AttributeError
  | Some employee =>
      match Assignment_project s self with
      | None => inr AttributeError
      | Some project =>
          inl ("<Assignment " ++ str_int (Assignment.id self) ++ ", "
               ++ str_option str_str (Assignment.role self) ++ ", "
               ++ str_option str_datetime (Assignment.start_date self) ++ ", "
               ++ str_option str_datetime (Assignment.end_date self) ++ ", "
               ++ str_option str_str (Employee.name employee) ++ ", "
               ++ str_option str_str (Project.title project) ++ ">")%string
      end
  end.

(** A string without a comma. *)
Fixpoint comma_free (x : string) : Prop :=
  match x with
  | EmptyString => True
  | String ch x' => ch <> ","%char /\ comma_free x'
  end.

(** ** The naming convention of the metadata *)

(** The pieces of a naming-convention template: text and the three
    substitution keys the source uses. *)
Inductive Token :=
| Literal (text : string)
| table_name
| column_0_name
| referred_table_name.

(** [metadata = MetaData(naming_convention={"fk": ...})]: the template
    [fk_%(table_name)s_%(column_0_name)s_%(referred_table_name)s]. *)
Module metadata.
Definition naming_convention_fk : list Token :=
  [Literal "fk_"; table_name; Literal "_"; column_0_name; Literal "_";
   referred_table_name].
End metadata.

(** The template with its keys substituted. *)
Definition expand (template : list Token) (table column referred : string) : string :=
  fold_right (fun tok rest =>
      ((match tok with
        | Literal text => text
        | table_name => table
        | column_0_name => column
        | referred_table_name => referred
        end) ++ rest)%string)
    EmptyString template.

(** The table a [db.ForeignKey('table.column')] refers to. *)
Fixpoint before_dot (target : string) : string :=
  match target with
  | EmptyString => EmptyString
  | String ch rest =>
      if Ascii.eqb ch "." then EmptyString else String ch (before_dot rest)
  end.

(** The name of the foreign-key constraint of column [c] of [table], if [c]
    declares one. *)
Definition fk_constraint_name (table : string) (c : Column) : option string :=
  match col_foreign_key c with
  | Some target =>
      Some (expand metadata.naming_convention_fk table (col_name c)
              (before_dot target))
  | None => None
  end.

(** The constraint names of all columns of the schema. *)
Definition fk_constraint_names : list (option string) :=
  map (fk_constraint_name employee_meetings.name)
    [employee_meetings.c.employee_id; employee_meetings.c.meeting_id]
  ++ map (fk_constraint_name Employee.__tablename__)
       [Employee.c.id; Employee.c.name; Employee.c.hire_date]
  ++ map (fk_constraint_name Meeting.__tablename__)
       [Meeting.c.id; Meeting.c.topic; Meeting.c.scheduled_time; Meeting.c.location]
  ++ map (fk_constraint_name Project.__tablename__)
       [Project.c.id; Project.c.title; Project.c.budget]
  ++ map (fk_constraint_name Assignment.__tablename__)
       [Assignment.c.id; Assignment.c.role; Assignment.c.start_date;
        Assignment.c.end_date; Assignment.c.employee_id; Assignment.c.project_id].

(** ** Further vocabulary *)

(** What [E.projects] keeps of its entries once the project [P] is
    deleted. *)
Definition other_than (P : Project.t) (entry : option Project.t) : bool :=
  match entry with
  | Some P' => negb (Project.id P' =? Project.id P)
  | None => true
  end.

(* ================================================================== *)
(** * Part 5.  Facts about lists, keys and the declared constraints *)
(* ================================================================== *)

Section ListFacts.
Context {A : Type}.
Implicit Types (l : list A) (key : A -> Z) (p q : A -> bool).

Lemma existsb_ext_in p q l :
  (forall x, In x l -> p x = q x) -> existsb p l = existsb q l.
Proof.
  induction l as [|a l IH]; intros H; simpl; [reflexivity|].
  rewrite (H a) by (left; reflexivity).
  rewrite IH; [reflexivity|]. intros x Hx. apply H. right. exact Hx.
Qed.

Lemma existsb_false p l :
  existsb p l = false <-> (forall x, In x l -> p x = false).
Proof.
  induction l as [|a l IH]; simpl.
  - split; [intros _ x []|reflexivity].
  - rewrite orb_false_iff, IH. split.
    + intros [Ha Hl] x [<-|Hx]; auto.
    + intros H. split; [apply H; auto|intros x Hx; apply H; auto].
Qed.

Lemma filter_filter p q l :
  filter q (filter p l) = filter (fun x => p x && q x) l.
Proof.
  induction l as [|a l IH]; simpl; [reflexivity|].
  destruct (p a); simpl; [destruct (q a)|]; rewrite IH; reflexivity.
Qed.

Lemma filter_all p l :
  (forall x, In x l -> p x = true) -> filter p l = l.
Proof.
  induction l as [|a l IH]; intros H; simpl; [reflexivity|].
  rewrite (H a) by (left; reflexivity). f_equal. apply IH.
  intros x Hx. apply H. right. exact Hx.
Qed.

Lemma NoDup_map_snoc key l x :
  NoDup (map key l) -> ~ In (key x) (map key l) -> NoDup (map key (l ++ [x])).
Proof.
  intros Hnd Hx. rewrite map_app. simpl.
  apply NoDup_app.
  - exact Hnd.
  - constructor; [intros []|constructor].
  - intros y Hy [<-|[]]. exact (Hx Hy).
Qed.

Lemma NoDup_map_filter key p l :
  NoDup (map key l) -> NoDup (map key (filter p l)).
Proof.
  induction l as [|a l IH]; simpl; intros H; [constructor|].
  inversion H as [|? ? Hin Hnd]; subst.
  destruct (p a); simpl; [constructor|]; auto.
  intros Hc. apply Hin. apply in_map_iff in Hc. destruct Hc as (y & Hy & Hc).
  apply in_map_iff. exists y. split; [exact Hy|].
  apply filter_In in Hc. tauto.
Qed.

Lemma map_key_update key (upd : A -> A) l :
  (forall x, key (upd x) = key x) -> map key (map upd l) = map key l.
Proof.
  intros H. rewrite map_map. apply map_ext. exact H.
Qed.

(** With unique keys, looking a member up by its key finds that member. *)
Lemma find_by_key key l x :
  NoDup (map key l) -> In x l -> find (fun y => key y =? key x) l = Some x.
Proof.
  induction l as [|a l IH]; simpl; intros Hnd Hin; [contradiction|].
  inversion Hnd as [|? ? Hnotin Hnd']; subst.
  destruct Hin as [->|Hin].
  - rewrite Z.eqb_refl. reflexivity.
  - destruct (Z.eqb_spec (key a) (key x)) as [Heq|_].
    + exfalso. apply Hnotin. rewrite Heq. apply in_map. exact Hin.
    + apply IH; assumption.
Qed.

Lemma find_key_some key l i x :
  find (fun y => key y =? i) l = Some x -> In x l /\ key x = i.
Proof.
  intros H. apply find_some in H. destruct H as [Hin Hk].
  split; [exact Hin|]. apply Z.eqb_eq. exact Hk.
Qed.

Lemma find_key_none key l i :
  find (fun y => key y =? i) l = None -> ~ In i (map key l).
Proof.
  intros H Hin. apply in_map_iff in Hin. destruct Hin as (x & Hk & Hin).
  pose proof (find_none _ _ H x Hin) as Hf. simpl in Hf.
  rewrite Hk, Z.eqb_refl in Hf. discriminate.
Qed.
End ListFacts.

Lemma existsb_eqb_In (x : Z) (l : list Z) : existsb (Z.eqb x) l = true <-> In x l.
Proof.
  rewrite existsb_exists. split.
  - intros (y & Hy & Heq). apply Z.eqb_eq in Heq. subst. exact Hy.
  - intros H. exists x. split; [exact H|apply Z.eqb_refl].
Qed.


Lemma next_id_above (ids : list Z) (x : Z) : In x ids -> x < next_id ids.
Proof.
  unfold next_id. induction ids as [|a ids IH]; cbn [fold_right In]; [intros []|].
  intros [->|H]; [lia|]. specialize (IH H). lia.
Qed.

Lemma next_id_fresh (ids : list Z) : ~ In (next_id ids) ids.
Proof. intros H. apply next_id_above in H. lia. Qed.

Lemma holds_Some (v : option Z) (x : Z) : holds v x = true <-> v = Some x.
Proof.
  destruct v as [y|]; simpl; [|split; discriminate].
  rewrite Z.eqb_eq. split; [intros ->; reflexivity|intros [= ->]; reflexivity].
Qed.

(** ** The declarations, read off *)

Lemma Employee_assignments_cascade :
  has_cascade delete Employee.assignments = true /\
  has_cascade delete_orphan Employee.assignments = true.
Proof. split; reflexivity. Qed.

Lemma Project_assignments_cascade :
  has_cascade delete Project.assignments = true /\
  has_cascade delete_orphan Project.assignments = true.
Proof. split; reflexivity. Qed.

(** The checks of the two foreign keys of [assignments]: NULL passes, a key
    passes when the referred table has it. *)
Lemma check_employee_id (s : Store) (v : option Z) :
  check_value s Assignment.c.employee_id v =
  match v with
  | None => None
  | Some x => if existsb (Z.eqb x) (employee_ids s) then None
              else Some ReferentialIntegrityError
  end.
Proof. destruct v; reflexivity. Qed.

Lemma check_project_id (s : Store) (v : option Z) :
  check_value s Assignment.c.project_id v =
  match v with
  | None => None
  | Some x => if existsb (Z.eqb x) (project_ids s) then None
              else Some ReferentialIntegrityError
  end.
Proof. destruct v; reflexivity. Qed.

Lemma check_em_employee_id (s : Store) (e : Z) :
  check_value s employee_meetings.c.employee_id (Some e) =
  if existsb (Z.eqb e) (employee_ids s) then None
  else Some ReferentialIntegrityError.
Proof. reflexivity. Qed.

Lemma check_em_meeting_id (s : Store) (m : Z) :
  check_value s employee_meetings.c.meeting_id (Some m) =
  if existsb (Z.eqb m) (meeting_ids s) then None
  else Some ReferentialIntegrityError.
Proof. reflexivity. Qed.

(** Both columns of [employees_meetings] are in its primary key: a conflict
    is a row with the same pair. *)
Lemma pk_conflict_linked (s : Store) (e m : Z) :
  pk_conflict s (e, m) = linked s e m.
Proof.
  unfold pk_conflict, linked.
  change (pk_of (e, m)) with [e; m].
  apply existsb_ext_in. intros [e' m'] _.
  change (pk_of (e', m')) with [e'; m']. cbn [fst snd].
  destruct (list_eq_dec Z.eq_dec [e'; m'] [e; m]) as [Heq|Hne].
  - injection Heq as -> ->. rewrite !Z.eqb_refl. reflexivity.
  - destruct (Z.eqb_spec e' e) as [->|]; [|reflexivity].
    destruct (Z.eqb_spec m' m) as [->|]; [|reflexivity].
    exfalso. apply Hne. reflexivity.
Qed.

Lemma linked_In (s : Store) (e m : Z) :
  linked s e m = true <-> In (e, m) (employees_meetings s).
Proof.
  unfold linked. rewrite existsb_exists. split.
  - intros ([e' m'] & Hin & H). simpl in H.
    apply andb_true_iff in H. destruct H as [He Hm].
    apply Z.eqb_eq in He, Hm. subst. exact Hin.
  - intros H. exists (e, m). simpl. rewrite !Z.eqb_refl. auto.
Qed.

(** Who references a row: employees are referenced from [assignments] and
    [employees_meetings], meetings from [employees_meetings], projects from
    [assignments]. *)
Lemma referenced_employees (s : Store) (x : Z) :
  referenced s (Employee.__tablename__ ++ ".id") x =
  existsb (fun a => holds (Assignment.employee_id a) x) (assignments s)
  || existsb (fun r => fst r =? x) (employees_meetings s).
Proof.
  unfold referenced. f_equal; apply existsb_ext_in.
  - intros a _. unfold references, holds. simpl.
    destruct (Assignment.employee_id a), (Assignment.project_id a);
      simpl; rewrite ?orb_false_r; reflexivity.
  - intros r _. unfold references. simpl. rewrite orb_false_r. reflexivity.
Qed.

Lemma referenced_meetings (s : Store) (x : Z) :
  referenced s (Meeting.__tablename__ ++ ".id") x =
  existsb (fun r => snd r =? x) (employees_meetings s).
Proof.
  unfold referenced.
  replace (existsb _ (assignments s)) with false.
  - simpl. apply existsb_ext_in. intros r _. unfold references. simpl. reflexivity.
  - symmetry. apply existsb_false. intros a _. unfold references. simpl.
    destruct (Assignment.employee_id a), (Assignment.project_id a); reflexivity.
Qed.

Lemma referenced_projects (s : Store) (x : Z) :
  referenced s (Project.__tablename__ ++ ".id") x =
  existsb (fun a => holds (Assignment.project_id a) x) (assignments s).
Proof.
  unfold referenced.
  replace (existsb _ (employees_meetings s)) with false.
  - rewrite orb_false_r. apply existsb_ext_in. intros a _.
    unfold references, holds. simpl.
    destruct (Assignment.employee_id a), (Assignment.project_id a); reflexivity.
  - symmetry. apply existsb_false. intros r _. unfold references. reflexivity.
Qed.

(* ================================================================== *)
(** * Part 6.  The constraints hold in every reachable state *)
(* ================================================================== *)

Lemma In_ids_snoc {A : Type} (key : A -> Z) (l : list A) (x : A) (i : Z) :
  In i (map key l) -> In i (map key (l ++ [x])).
Proof. intros H. rewrite map_app. apply in_or_app. left. exact H. Qed.

Lemma In_ids_delete {A : Type} (key : A -> Z) (l : list A) (i j : Z) :
  In j (map key l) -> j <> i ->
  In j (map key (filter (fun x => negb (key x =? i)) l)).
Proof.
  intros H Hne. apply in_map_iff in H. destruct H as (x & Hk & Hx).
  apply in_map_iff. exists x. split; [exact Hk|].
  apply filter_In. split; [exact Hx|].
  apply negb_true_iff, Z.eqb_neq. congruence.
Qed.

Lemma empty_consistent : consistent empty_store.
Proof.
  constructor; simpl; try constructor; intros; contradiction.
Qed.

Ltac store_simpl :=
  unfold employee_ids, meeting_ids, project_ids, assignment_ids,
    set_employees, set_meetings, set_projects, set_assignments,
    set_employees_meetings in *;
  cbn [employees meetings projects assignments employees_meetings] in *.

(** A successful INSERT keeps the constraints. *)
Lemma insert_consistent (s s' : Store) (q : Statement) :
  match q with
  | INSERT_employees _ _ | INSERT_meetings _ _ _ | INSERT_projects _ _
  | INSERT_assignments _ _ _ _ _ | INSERT_employees_meetings _ _ => True
  | _ => False
  end ->
  consistent s -> execute q s = Ok s' -> consistent s'.
Proof.
  intros Hq [K1 K2 K3 K4 K5 F1 F2 F3 F4] H.
  destruct q; try contradiction; clear Hq; cbn [execute] in H.
  - injection H as <-. constructor; store_simpl; auto.
    + apply NoDup_map_snoc; [assumption|]. apply next_id_fresh.
    + intros a e Ha He. apply In_ids_snoc. eauto.
    + intros r Hr. apply In_ids_snoc. eauto.
  - injection H as <-. constructor; store_simpl; auto.
    + apply NoDup_map_snoc; [assumption|]. apply next_id_fresh.
    + intros r Hr. apply In_ids_snoc. eauto.
  - destruct (check_integer Project.c.budget budget); [discriminate H|].
    cbn [require bind] in H.
    injection H as <-. constructor; store_simpl; auto.
    + apply NoDup_map_snoc; [assumption|]. apply next_id_fresh.
    + intros a e Ha He. apply In_ids_snoc. eauto.
  - rewrite check_employee_id, check_project_id in H.
    assert (He : forall e, employee_id = Some e -> In e (employee_ids s)).
    { intros e ->. destruct (existsb (Z.eqb e) (employee_ids s)) eqn:E;
        [apply existsb_eqb_In; exact E|discriminate]. }
    assert (Hp : forall p, project_id = Some p -> In p (project_ids s)).
    { intros p ->. destruct employee_id as [e|];
        [destruct (existsb (Z.eqb e) (employee_ids s)); [|discriminate]|];
        (destruct (existsb (Z.eqb p) (project_ids s)) eqn:E;
          [apply existsb_eqb_In; exact E|discriminate]). }
    assert (Hs : s' = set_assignments s
              (assignments s ++
                 [Assignment.mk (next_id (assignment_ids s)) role start_date
                    end_date employee_id project_id])).
    { destruct employee_id as [e|], project_id as [p|]; simpl in H;
        repeat match type of H with
               | context [existsb ?f ?l] => destruct (existsb f l); simpl in H
               end; congruence. }
    subst s'. clear H. constructor; store_simpl; auto.
    + apply NoDup_map_snoc; [assumption|]. apply next_id_fresh.
    + intros a e Ha Hae. apply in_app_or in Ha. destruct Ha as [Ha|[<-|[]]]; eauto.
    + intros a p Ha Hap. apply in_app_or in Ha. destruct Ha as [Ha|[<-|[]]]; eauto.
  - rewrite check_em_employee_id, check_em_meeting_id, pk_conflict_linked in H.
    destruct (existsb (Z.eqb employee_id) (employee_ids s)) eqn:Ee; [|discriminate].
    destruct (existsb (Z.eqb meeting_id) (meeting_ids s)) eqn:Em; [|discriminate].
    simpl in H. destruct (linked s employee_id meeting_id) eqn:El; [discriminate|].
    injection H as <-. apply existsb_eqb_In in Ee, Em.
    constructor; store_simpl; auto.
    + apply NoDup_app.
      * assumption.
      * constructor; [intros []|constructor].
      * intros r Hr [<-|[]]. apply linked_In in Hr. congruence.
    + intros r Hr. apply in_app_or in Hr. destruct Hr as [Hr|[<-|[]]]; auto.
    + intros r Hr. apply in_app_or in Hr. destruct Hr as [Hr|[<-|[]]]; auto.
Qed.

(** A successful UPDATE keeps the constraints: identifiers are not
    rewritten, and the new foreign keys of an assignment are checked. *)
Lemma update_consistent (s s' : Store) (q : Statement) :
  match q with
  | UPDATE_employees _ _ _ | UPDATE_meetings _ _ _ _ | UPDATE_projects _ _ _
  | UPDATE_assignments _ _ _ _ _ _ => True
  | _ => False
  end ->
  consistent s -> execute q s = Ok s' -> consistent s'.
Proof.
  intros Hq [K1 K2 K3 K4 K5 F1 F2 F3 F4] H.
  destruct q; try contradiction; clear Hq; cbn [execute] in H.
  - injection H as <-.
    assert (Hids : map Employee.id
              (map (fun x => if Employee.id x =? id then Employee.mk id name hire_date
                             else x) (employees s)) = map Employee.id (employees s)).
    { apply map_key_update. intros x.
      destruct (Z.eqb_spec (Employee.id x) id); simpl; congruence. }
    constructor; store_simpl; rewrite ?Hids; auto.
  - injection H as <-.
    assert (Hids : map Meeting.id
              (map (fun x => if Meeting.id x =? id
                             then Meeting.mk id topic scheduled_time location
                             else x) (meetings s)) = map Meeting.id (meetings s)).
    { apply map_key_update. intros x.
      destruct (Z.eqb_spec (Meeting.id x) id); simpl; congruence. }
    constructor; store_simpl; rewrite ?Hids; auto.
  - destruct (check_integer Project.c.budget budget); [discriminate H|].
    cbn [require bind] in H. injection H as <-.
    assert (Hids : map Project.id
              (map (fun x => if Project.id x =? id then Project.mk id title budget
                             else x) (projects s)) = map Project.id (projects s)).
    { apply map_key_update. intros x.
      destruct (Z.eqb_spec (Project.id x) id); simpl; congruence. }
    constructor; store_simpl; rewrite ?Hids; auto.
  - destruct (existsb (Z.eqb id) (assignment_ids s));
      [|injection H as <-; constructor; assumption].
    rewrite check_employee_id, check_project_id in H.
    assert (He : forall e, employee_id = Some e -> In e (employee_ids s)).
    { intros e ->. destruct (existsb (Z.eqb e) (employee_ids s)) eqn:E;
        [apply existsb_eqb_In; exact E|discriminate]. }
    assert (Hp : forall p, project_id = Some p -> In p (project_ids s)).
    { intros p ->. destruct employee_id as [e|];
        [destruct (existsb (Z.eqb e) (employee_ids s)); [|discriminate]|];
        (destruct (existsb (Z.eqb p) (project_ids s)) eqn:E;
          [apply existsb_eqb_In; exact E|discriminate]). }
    assert (Hs : s' = set_assignments s
              (map (fun x => if Assignment.id x =? id
                             then Assignment.mk id role start_date end_date
                                    employee_id project_id
                             else x) (assignments s))).
    { destruct employee_id as [e|], project_id as [p|]; simpl in H;
        repeat match type of H with
               | context [existsb ?f ?l] => destruct (existsb f l); simpl in H
               end; congruence. }
    subst s'. clear H.
    assert (Hids : map Assignment.id
              (map (fun x => if Assignment.id x =? id
                             then Assignment.mk id role start_date end_date
                                    employee_id project_id
                             else x) (assignments s))
            = map Assignment.id (assignments s)).
    { apply map_key_update. intros x.
      destruct (Z.eqb_spec (Assignment.id x) id); simpl; congruence. }
    constructor; store_simpl; rewrite ?Hids; auto.
    + intros a e Ha Hae. apply in_map_iff in Ha. destruct Ha as (x & <- & Hx).
      destruct (Assignment.id x =? id); eauto.
    + intros a p Ha Hap. apply in_map_iff in Ha. destruct Ha as (x & <- & Hx).
      destruct (Assignment.id x =? id); eauto.
Qed.

(** A successful DELETE keeps the constraints: a row still referenced is
    not deleted. *)
Lemma delete_consistent (s s' : Store) (q : Statement) :
  match q with
  | DELETE_employees _ | DELETE_meetings _ | DELETE_projects _
  | DELETE_assignments _ | DELETE_employees_meetings _ _ => True
  | _ => False
  end ->
  consistent s -> execute q s = Ok s' -> consistent s'.
Proof.
  intros Hq [K1 K2 K3 K4 K5 F1 F2 F3 F4] H.
  destruct q; try contradiction; clear Hq; cbn [execute] in H.
  - rewrite referenced_employees in H.
    destruct (existsb _ (assignments s)) eqn:Ea; [discriminate|].
    destruct (existsb _ (employees_meetings s)) eqn:Er; [discriminate|].
    injection H as <-.
    pose proof (proj1 (existsb_false _ _) Ea) as Ha.
    pose proof (proj1 (existsb_false _ _) Er) as Hr.
    constructor; store_simpl; auto.
    + apply NoDup_map_filter. assumption.
    + intros a e Hin He. apply In_ids_delete; [eauto|].
      intros ->. specialize (Ha a Hin). simpl in Ha.
      rewrite He in Ha. simpl in Ha. rewrite Z.eqb_refl in Ha. discriminate.
    + intros r Hin. apply In_ids_delete; [eauto|].
      intros Heq. specialize (Hr r Hin). simpl in Hr.
      rewrite Heq, Z.eqb_refl in Hr. discriminate.
  - rewrite referenced_meetings in H.
    destruct (existsb _ (employees_meetings s)) eqn:Er; [discriminate|].
    injection H as <-.
    pose proof (proj1 (existsb_false _ _) Er) as Hr.
    constructor; store_simpl; auto.
    + apply NoDup_map_filter. assumption.
    + intros r Hin. apply In_ids_delete; [eauto|].
      intros Heq. specialize (Hr r Hin). simpl in Hr.
      rewrite Heq, Z.eqb_refl in Hr. discriminate.
  - rewrite referenced_projects in H.
    destruct (existsb _ (assignments s)) eqn:Ea; [discriminate|].
    injection H as <-.
    pose proof (proj1 (existsb_false _ _) Ea) as Ha.
    constructor; store_simpl; auto.
    + apply NoDup_map_filter. assumption.
    + intros a p Hin Hp. apply In_ids_delete; [eauto|].
      intros ->. specialize (Ha a Hin). simpl in Ha.
      rewrite Hp in Ha. simpl in Ha. rewrite Z.eqb_refl in Ha. discriminate.
  - injection H as <-. constructor; store_simpl; auto.
    + apply NoDup_map_filter. assumption.
    + intros a e Hin. apply filter_In in Hin. destruct Hin as [Hin _]. eauto.
    + intros a p Hin. apply filter_In in Hin. destruct Hin as [Hin _]. eauto.
  - injection H as <-. constructor; store_simpl; auto.
    + apply NoDup_filter. assumption.
    + intros r Hin. apply filter_In in Hin. destruct Hin as [Hin _]. eauto.
    + intros r Hin. apply filter_In in Hin. destruct Hin as [Hin _]. eauto.
Qed.

Lemma execute_consistent (s s' : Store) (q : Statement) :
  consistent s -> execute q s = Ok s' -> consistent s'.
Proof.
  destruct q;
    first [ apply insert_consistent; exact I
          | apply update_consistent; exact I
          | apply delete_consistent; exact I ].
Qed.

Lemma execute_all_consistent (qs : list Statement) (s s' : Store) :
  consistent s -> execute_all qs s = Ok s' -> consistent s'.
Proof.
  revert s. induction qs as [|q qs IH]; simpl; intros s Hs H.
  - injection H as <-. exact Hs.
  - destruct (execute q s) as [s1|e] eqn:E; simpl in H; [|discriminate].
    eapply IH; [|exact H]. eapply execute_consistent; eassumption.
Qed.

Lemma commit_consistent (qs : list Statement) (s : Store) :
  consistent s -> consistent (fst (commit qs s)).
Proof.
  intros Hs. unfold commit.
  destruct (execute_all qs s) as [s'|e] eqn:E; simpl; [|exact Hs].
  eapply execute_all_consistent; eassumption.
Qed.

(** Every operation is a transaction or fails before it starts one. *)
Lemma perform_commit (op : Operation) (s : Store) :
  (exists qs, perform op s = commit qs s) \/ (exists e, perform op s = fail s e).
Proof.
  destruct op; simpl;
    unfold add_Employee, add_Meeting, add_Project, add_Assignment,
      update_Employee, update_Meeting, update_Project, update_Assignment,
      delete_Employee, delete_Meeting, delete_Project, delete_Assignment,
      Employee_projects_append, Project_employees_append,
      Employee_assignments_remove, Project_assignments_remove,
      Employee_projects_remove, Project_employees_remove,
      Employee_meetings_append, Meeting_employees_append,
      Employee_meetings_remove, Meeting_employees_remove;
    repeat match goal with
           | |- context [match ?x with _ => _ end] => destruct x
           end;
    eauto.
Qed.

Lemma perform_consistent (op : Operation) (s : Store) :
  consistent s -> consistent (fst (perform op s)).
Proof.
  intros Hs. destruct (perform_commit op s) as [[qs ->]|[e ->]].
  - apply commit_consistent. exact Hs.
  - exact Hs.
Qed.

Lemma reachable_consistent (s : Store) : reachable s -> consistent s.
Proof.
  induction 1 as [|s op _ IH].
  - exact empty_consistent.
  - apply perform_consistent. exact IH.
Qed.

Lemma run_reachable (ops : list Operation) (s : Store) :
  reachable s -> reachable (run ops s).
Proof.
  revert s. induction ops as [|op ops IH]; simpl; intros s Hs; [exact Hs|].
  apply IH. constructor. exact Hs.
Qed.

(* ================================================================== *)
(** * Part 7.  What the operations do to a consistent store *)
(* ================================================================== *)

Lemma get_employee_In (s : Store) (E : Employee.t) :
  consistent s -> In E (employees s) -> get_employee s (Employee.id E) = Some E.
Proof. intros Hs HE. apply find_by_key; [apply Hs|exact HE]. Qed.

Lemma get_meeting_In (s : Store) (M : Meeting.t) :
  consistent s -> In M (meetings s) -> get_meeting s (Meeting.id M) = Some M.
Proof. intros Hs HM. apply find_by_key; [apply Hs|exact HM]. Qed.

Lemma get_project_In (s : Store) (P : Project.t) :
  consistent s -> In P (projects s) -> get_project s (Project.id P) = Some P.
Proof. intros Hs HP. apply find_by_key; [apply Hs|exact HP]. Qed.

Lemma get_assignment_In (s : Store) (A : Assignment.t) :
  consistent s -> In A (assignments s) ->
  get_assignment s (Assignment.id A) = Some A.
Proof. intros Hs HA. apply find_by_key; [apply Hs|exact HA]. Qed.

Lemma existsb_id_In {A : Type} (key : A -> Z) (l : list A) (x : A) :
  In x l -> existsb (Z.eqb (key x)) (map key l) = true.
Proof. intros H. apply existsb_eqb_In. apply in_map. exact H. Qed.

Lemma Employee_projects_append_ok (s : Store) (E : Employee.t) (P : Project.t) :
  consistent s -> In E (employees s) -> In P (projects s) ->
  Employee_projects_append (Employee.id E) (Project.id P) s =
  (set_assignments s
     (assignments s ++ [link s (Employee.id E) (Project.id P)]), None).
Proof.
  intros Hs HE HP. unfold Employee_projects_append.
  rewrite (get_employee_In s E Hs HE), (get_project_In s P Hs HP).
  unfold commit, insert_pending, collection_append.
  cbn [execute_all execute Employee.assignments Employee.projects creator
       rel_back_populates set_attr String.eqb Ascii.eqb Bool.eqb
       Assignment.p_role Assignment.p_start_date Assignment.p_end_date
       Assignment.p_employee Assignment.p_project].
  rewrite check_employee_id, check_project_id.
  unfold employee_ids, project_ids.
  rewrite (existsb_id_In Employee.id _ E HE), (existsb_id_In Project.id _ P HP).
  reflexivity.
Qed.

Lemma Project_employees_append_ok (s : Store) (E : Employee.t) (P : Project.t) :
  consistent s -> In E (employees s) -> In P (projects s) ->
  Project_employees_append (Project.id P) (Employee.id E) s =
  (set_assignments s
     (assignments s ++ [link s (Employee.id E) (Project.id P)]), None).
Proof.
  intros Hs HE HP. unfold Project_employees_append.
  rewrite (get_employee_In s E Hs HE), (get_project_In s P Hs HP).
  unfold commit, insert_pending, collection_append.
  cbn [execute_all execute Project.assignments Project.employees creator
       rel_back_populates set_attr String.eqb Ascii.eqb Bool.eqb
       Assignment.p_role Assignment.p_start_date Assignment.p_end_date
       Assignment.p_employee Assignment.p_project].
  rewrite check_employee_id, check_project_id.
  unfold employee_ids, project_ids.
  rewrite (existsb_id_In Employee.id _ E HE), (existsb_id_In Project.id _ P HP).
  reflexivity.
Qed.

(** ** Transactions of several statements *)

Lemma execute_all_app (qs1 qs2 : list Statement) (s : Store) :
  execute_all (qs1 ++ qs2) s = bind (execute_all qs1 s) (execute_all qs2).
Proof.
  revert s. induction qs1 as [|q qs1 IH]; intros s; simpl; [reflexivity|].
  destruct (execute q s); simpl; [apply IH|reflexivity].
Qed.

Lemma set_assignments_same (s : Store) : set_assignments s (assignments s) = s.
Proof. destruct s; reflexivity. Qed.

Lemma set_employees_meetings_same (s : Store) :
  set_employees_meetings s (employees_meetings s) = s.
Proof. destruct s; reflexivity. Qed.

(** Deleting the assignments [children] one by one leaves the assignments
    whose identifier is not among theirs. *)
Lemma delete_assignments_all (children : list Assignment.t) (s : Store) :
  execute_all (map (fun a => DELETE_assignments (Assignment.id a)) children) s =
  Ok (set_assignments s
        (filter (fun a => negb (existsb (fun c => Assignment.id a =? Assignment.id c)
                                  children))
           (assignments s))).
Proof.
  revert s. induction children as [|c children IH]; intros s.
  - simpl. rewrite filter_all by reflexivity. rewrite set_assignments_same. reflexivity.
  - cbn [map execute_all execute bind]. rewrite IH. f_equal.
    unfold set_assignments. cbn [employees meetings projects assignments employees_meetings].
    f_equal. rewrite filter_filter. apply filter_ext. intros a.
    cbn [existsb]. rewrite negb_orb. reflexivity.
Qed.

(** Deleting the rows [rows] of [employees_meetings] one by one. *)
Lemma delete_employees_meetings_all (rows : list (Z * Z)) (s : Store) :
  execute_all (map (fun x => DELETE_employees_meetings (fst x) (snd x)) rows) s =
  Ok (set_employees_meetings s
        (filter (fun r => negb (existsb (fun x => (fst r =? fst x) && (snd r =? snd x))
                                  rows))
           (employees_meetings s))).
Proof.
  revert s. induction rows as [|x rows IH]; intros s.
  - simpl. rewrite filter_all by reflexivity.
    rewrite set_employees_meetings_same. reflexivity.
  - cbn [map execute_all execute bind]. rewrite IH. f_equal.
    unfold set_employees_meetings.
    cbn [employees meetings projects assignments employees_meetings].
    f_equal. rewrite filter_filter. apply filter_ext. intros r.
    cbn [existsb]. rewrite negb_orb. reflexivity.
Qed.

(** With unique keys, "has the key of a member of the selection" is "is
    selected". *)
Lemma existsb_selected {A : Type} (key : A -> Z) (sel : A -> bool)
    (l : list A) (a : A) :
  NoDup (map key l) -> In a l ->
  existsb (fun c => key a =? key c) (filter sel l) = sel a.
Proof.
  intros Hnd Ha. destruct (sel a) eqn:Hsel.
  - apply existsb_exists. exists a. split; [|apply Z.eqb_refl].
    apply filter_In. auto.
  - apply existsb_false. intros c Hc. apply filter_In in Hc. destruct Hc as [Hc Hselc].
    destruct (Z.eqb_spec (key a) (key c)) as [Heq|]; [|reflexivity].
    exfalso.
    pose proof (find_by_key key l a Hnd Ha) as Fa.
    pose proof (find_by_key key l c Hnd Hc) as Fc.
    rewrite Heq in Fa. rewrite Fa in Fc. injection Fc as ->. congruence.
Qed.

Lemma existsb_selected_rows (sel : Z * Z -> bool) (l : list (Z * Z)) (r : Z * Z) :
  In r l ->
  existsb (fun x => (fst r =? fst x) && (snd r =? snd x)) (filter sel l) = sel r.
Proof.
  intros Hr. destruct (sel r) eqn:Hsel.
  - apply existsb_exists. exists r. split; [apply filter_In; auto|].
    rewrite !Z.eqb_refl. reflexivity.
  - apply existsb_false. intros x Hx. apply filter_In in Hx. destruct Hx as [Hx Hselx].
    destruct (Z.eqb_spec (fst r) (fst x)) as [H1|]; [|reflexivity].
    destruct (Z.eqb_spec (snd r) (snd x)) as [H2|]; [|reflexivity].
    exfalso. destruct r, x. simpl in *. subst. congruence.
Qed.

Lemma existsb_filter_negb {A : Type} (p : A -> bool) (l : list A) :
  existsb p (filter (fun x => negb (p x)) l) = false.
Proof.
  apply existsb_false. intros x Hx. apply filter_In in Hx.
  destruct Hx as [_ Hx]. apply negb_true_iff. exact Hx.
Qed.

(** ** Deleting a parent *)

Lemma delete_Employee_ok (s : Store) (E : Employee.t) :
  consistent s -> In E (employees s) ->
  delete_Employee (Employee.id E) s =
  (mkStore
     (filter (fun x => negb (Employee.id x =? Employee.id E)) (employees s))
     (meetings s) (projects s)
     (filter (fun a => negb (holds (Assignment.employee_id a) (Employee.id E)))
        (assignments s))
     (filter (fun r => negb (fst r =? Employee.id E)) (employees_meetings s)),
   None).
Proof.
  intros Hs HE. unfold delete_Employee. rewrite (get_employee_In s E Hs HE).
  unfold commit, secondary_delete, dependents.
  change (has_cascade delete Employee.assignments) with true.
  cbn [rel_secondary Employee.meetings].
  rewrite execute_all_app, delete_employees_meetings_all. cbn [bind].
  rewrite execute_all_app, delete_assignments_all. cbn [bind execute_all execute].
  rewrite referenced_employees. store_simpl.
  rewrite (filter_ext_in _ (fun a => negb (holds (Assignment.employee_id a) (Employee.id E)))
             (assignments s)).
  2:{ intros a Ha. unfold Employee_assignments. f_equal.
      apply (existsb_selected Assignment.id); [apply Hs|exact Ha]. }
  rewrite (filter_ext_in _ (fun r => negb (fst r =? Employee.id E))
             (employees_meetings s)).
  2:{ intros r Hr. f_equal.
      apply (existsb_selected_rows (fun r => fst r =? Employee.id E)). exact Hr. }
  rewrite (existsb_filter_negb (fun a => holds (Assignment.employee_id a) (Employee.id E))).
  rewrite (existsb_filter_negb (fun r : Z * Z => fst r =? Employee.id E)).
  reflexivity.
Qed.

Lemma delete_Project_ok (s : Store) (P : Project.t) :
  consistent s -> In P (projects s) ->
  delete_Project (Project.id P) s =
  (mkStore (employees s) (meetings s)
     (filter (fun x => negb (Project.id x =? Project.id P)) (projects s))
     (filter (fun a => negb (holds (Assignment.project_id a) (Project.id P)))
        (assignments s))
     (employees_meetings s),
   None).
Proof.
  intros Hs HP. unfold delete_Project. rewrite (get_project_In s P Hs HP).
  unfold commit, dependents.
  change (has_cascade delete Project.assignments) with true.
  rewrite execute_all_app, delete_assignments_all. cbn [bind execute_all execute].
  rewrite referenced_projects. store_simpl.
  rewrite (filter_ext_in _ (fun a => negb (holds (Assignment.project_id a) (Project.id P)))
             (assignments s)).
  2:{ intros a Ha. unfold Project_assignments. f_equal.
      apply (existsb_selected Assignment.id); [apply Hs|exact Ha]. }
  rewrite (existsb_filter_negb (fun a => holds (Assignment.project_id a) (Project.id P))).
  reflexivity.
Qed.

Lemma delete_Meeting_ok (s : Store) (M : Meeting.t) :
  consistent s -> In M (meetings s) ->
  delete_Meeting (Meeting.id M) s =
  (mkStore (employees s)
     (filter (fun x => negb (Meeting.id x =? Meeting.id M)) (meetings s))
     (projects s) (assignments s)
     (filter (fun r => negb (snd r =? Meeting.id M)) (employees_meetings s)),
   None).
Proof.
  intros Hs HM. unfold delete_Meeting. rewrite (get_meeting_In s M Hs HM).
  unfold commit, secondary_delete.
  cbn [rel_secondary Meeting.employees].
  rewrite execute_all_app, delete_employees_meetings_all.
  cbn [bind execute_all execute].
  rewrite referenced_meetings. store_simpl.
  rewrite (filter_ext_in _ (fun r => negb (snd r =? Meeting.id M))
             (employees_meetings s)).
  2:{ intros r Hr. f_equal.
      apply (existsb_selected_rows (fun r => snd r =? Meeting.id M)). exact Hr. }
  rewrite (existsb_filter_negb (fun r : Z * Z => snd r =? Meeting.id M)).
  reflexivity.
Qed.

(** ** Removing from a collection *)

(** Both [assignments] collections carry [delete-orphan]: the flush of a
    removal is the DELETE of the removed assignment. *)
Lemma commit_orphan (s : Store) (A : Assignment.t) :
  commit [orphan Employee.assignments A] s =
    (set_assignments s
       (filter (fun x => negb (Assignment.id x =? Assignment.id A)) (assignments s)),
     None) /\
  commit [orphan Project.assignments A] s =
    (set_assignments s
       (filter (fun x => negb (Assignment.id x =? Assignment.id A)) (assignments s)),
     None).
Proof. split; reflexivity. Qed.

Lemma find_selected {A : Type} (key : A -> Z) (sel : A -> bool) (l : list A) (a : A) :
  NoDup (map key l) -> In a l -> sel a = true ->
  find (fun x => key x =? key a) (filter sel l) = Some a.
Proof.
  intros Hnd Ha Hsel. apply find_by_key.
  - apply NoDup_map_filter. exact Hnd.
  - apply filter_In. auto.
Qed.

Lemma Employee_assignments_remove_ok (s : Store) (E : Employee.t) (A : Assignment.t) :
  consistent s -> In E (employees s) -> In A (Employee_assignments s E) ->
  Employee_assignments_remove (Employee.id E) (Assignment.id A) s =
  (set_assignments s
     (filter (fun x => negb (Assignment.id x =? Assignment.id A)) (assignments s)),
   None).
Proof.
  intros Hs HE HA. unfold Employee_assignments_remove.
  rewrite (get_employee_In s E Hs HE).
  apply filter_In in HA. destruct HA as [HA Hsel].
  unfold Employee_assignments.
  rewrite (find_selected Assignment.id _ _ A (pk_assignments s Hs) HA Hsel).
  apply commit_orphan.
Qed.

Lemma Project_assignments_remove_ok (s : Store) (P : Project.t) (A : Assignment.t) :
  consistent s -> In P (projects s) -> In A (Project_assignments s P) ->
  Project_assignments_remove (Project.id P) (Assignment.id A) s =
  (set_assignments s
     (filter (fun x => negb (Assignment.id x =? Assignment.id A)) (assignments s)),
   None).
Proof.
  intros Hs HP HA. unfold Project_assignments_remove.
  rewrite (get_project_In s P Hs HP).
  apply filter_In in HA. destruct HA as [HA Hsel].
  unfold Project_assignments.
  rewrite (find_selected Assignment.id _ _ A (pk_assignments s Hs) HA Hsel).
  apply commit_orphan.
Qed.

Lemma find_exists {A : Type} (f : A -> bool) (l : list A) (a : A) :
  In a l -> f a = true -> exists b, find f l = Some b.
Proof.
  intros Ha Hf. destruct (find f l) as [b|] eqn:E; [eauto|].
  rewrite (find_none _ _ E a Ha) in Hf. discriminate.
Qed.

(** [a.project] is [P] exactly when [project_id] holds the key of [P]. *)
Lemma Assignment_project_Some (s : Store) (a : Assignment.t) (P : Project.t) :
  Assignment_project s a = Some P ->
  In P (projects s) /\ Assignment.project_id a = Some (Project.id P).
Proof.
  unfold Assignment_project. destruct (Assignment.project_id a) as [p|]; [|discriminate].
  intros H. apply find_key_some in H. destruct H as [Hin <-]. auto.
Qed.

Lemma Assignment_employee_Some (s : Store) (a : Assignment.t) (E : Employee.t) :
  Assignment_employee s a = Some E ->
  In E (employees s) /\ Assignment.employee_id a = Some (Employee.id E).
Proof.
  unfold Assignment_employee. destruct (Assignment.employee_id a) as [e|]; [|discriminate].
  intros H. apply find_key_some in H. destruct H as [Hin <-]. auto.
Qed.

Lemma Employee_projects_remove_ok (s : Store) (E : Employee.t) (P : Project.t) :
  consistent s -> In E (employees s) -> In (Some P) (Employee_projects s E) ->
  exists A,
    In A (Employee_assignments s E) /\
    Assignment.project_id A = Some (Project.id P) /\
    Employee_projects_remove (Employee.id E) (Project.id P) s =
    (set_assignments s
       (filter (fun x => negb (Assignment.id x =? Assignment.id A)) (assignments s)),
     None).
Proof.
  intros Hs HE HP. unfold Employee_projects in HP.
  apply in_map_iff in HP. destruct HP as (a & Hproj & Ha).
  destruct (Assignment_project_Some s a P Hproj) as [HPin _].
  unfold Employee_projects_remove.
  rewrite (get_employee_In s E Hs HE), (get_project_In s P Hs HPin).
  destruct (find_exists
              (fun x => match Assignment_project s x with
                        | Some P' => Project.id P' =? Project.id P
                        | None => false
                        end) (Employee_assignments s E) a Ha) as [A HA].
  { rewrite Hproj. apply Z.eqb_refl. }
  rewrite HA. apply find_some in HA. destruct HA as [HAin Hsel].
  exists A. split; [exact HAin|]. split; [|apply commit_orphan].
  destruct (Assignment_project s A) as [P'|] eqn:EP; [|discriminate].
  apply Assignment_project_Some in EP. destruct EP as [_ ->].
  apply Z.eqb_eq in Hsel. rewrite Hsel. reflexivity.
Qed.

(** ** Appending to [meetings] and [employees] *)

Lemma Employee_meetings_append_ok (s : Store) (E : Employee.t) (M : Meeting.t) :
  consistent s -> In E (employees s) -> In M (meetings s) ->
  ~ In (Employee.id E, Meeting.id M) (employees_meetings s) ->
  Employee_meetings_append (Employee.id E) (Meeting.id M) s =
  (set_employees_meetings s
     (employees_meetings s ++ [(Employee.id E, Meeting.id M)]), None).
Proof.
  intros Hs HE HM Hnew. unfold Employee_meetings_append.
  rewrite (get_employee_In s E Hs HE), (get_meeting_In s M Hs HM).
  assert (Hl : linked s (Employee.id E) (Meeting.id M) = false).
  { destruct (linked s (Employee.id E) (Meeting.id M)) eqn:L; [|reflexivity].
    apply linked_In in L. contradiction. }
  unfold commit, secondary_insert.
  cbn [rel_secondary Employee.meetings execute_all execute].
  rewrite check_em_employee_id, check_em_meeting_id, pk_conflict_linked, Hl.
  unfold employee_ids, meeting_ids.
  rewrite (existsb_id_In Employee.id _ E HE), (existsb_id_In Meeting.id _ M HM).
  reflexivity.
Qed.

Lemma Meeting_employees_append_ok (s : Store) (E : Employee.t) (M : Meeting.t) :
  consistent s -> In E (employees s) -> In M (meetings s) ->
  ~ In (Employee.id E, Meeting.id M) (employees_meetings s) ->
  Meeting_employees_append (Meeting.id M) (Employee.id E) s =
  (set_employees_meetings s
     (employees_meetings s ++ [(Employee.id E, Meeting.id M)]), None).
Proof.
  intros Hs HE HM Hnew. unfold Meeting_employees_append.
  rewrite (get_employee_In s E Hs HE), (get_meeting_In s M Hs HM).
  assert (Hl : linked s (Employee.id E) (Meeting.id M) = false).
  { destruct (linked s (Employee.id E) (Meeting.id M)) eqn:L; [|reflexivity].
    apply linked_In in L. contradiction. }
  unfold commit, secondary_insert.
  cbn [rel_secondary Meeting.employees execute_all execute].
  rewrite check_em_employee_id, check_em_meeting_id, pk_conflict_linked, Hl.
  unfold employee_ids, meeting_ids.
  rewrite (existsb_id_In Employee.id _ E HE), (existsb_id_In Meeting.id _ M HM).
  reflexivity.
Qed.

Lemma office_reachable : reachable office.
Proof. apply run_reachable. constructor. Qed.

Lemma busy_office_reachable : reachable busy_office.
Proof. apply run_reachable. exact office_reachable. Qed.

(* ================================================================== *)
(** * Part 8.  The properties of the specification *)
(* ================================================================== *)

(** C1.  For an employee [E] and a project [P] of a reachable store,
    [E.projects.append(P)] succeeds; reading [E.projects] afterwards yields
    a sequence containing [P], and reading [P.employees] yields a sequence
    containing [E]. *)
Theorem C1_append_bidirectional (s : Store) (E : Employee.t) (P : Project.t) :
  reachable s -> In E (employees s) -> In P (projects s) ->
  let r := Employee_projects_append (Employee.id E) (Project.id P) s in
  snd r = None /\
  In (Some P) (Employee_projects (fst r) E) /\
  In (Some E) (Project_employees (fst r) P).
Proof.
  intros Hr HE HP. apply reachable_consistent in Hr.
  rewrite (Employee_projects_append_ok s E P Hr HE HP). cbn [fst snd].
  split; [reflexivity|]. split.
  - apply in_map_iff. exists (link s (Employee.id E) (Project.id P)). split.
    + apply (get_project_In s P Hr HP).
    + apply filter_In. split.
      * cbn [assignments set_assignments]. apply in_or_app. right. left. reflexivity.
      * apply Z.eqb_refl.
  - apply in_map_iff. exists (link s (Employee.id E) (Project.id P)). split.
    + apply (get_employee_In s E Hr HE).
    + apply filter_In. split.
      * cbn [assignments set_assignments]. apply in_or_app. right. left. reflexivity.
      * apply Z.eqb_refl.
Qed.

Lemma C1_append_bidirectional_witness :
  let r := Employee_projects_append 1 1 office in
  snd r = None /\
  In (Some kickoff) (Employee_projects (fst r) john) /\
  In (Some john) (Project_employees (fst r) kickoff).
Proof.
  apply (C1_append_bidirectional office john kickoff).
  - exact office_reachable.
  - vm_compute. left. reflexivity.
  - vm_compute. left. reflexivity.
Defined.

(** C2.  Deleting an employee [E] of a reachable store succeeds and removes
    the row of [E], every assignment with [employee_id = E.id] and every row
    of [employees_meetings] with [employee_id = E.id]: the assignments and
    the join rows left are exactly the other rows, unchanged, none kept with
    its key set to NULL.  The projects and the meetings are the rows they
    were, so every project in [E.projects] and every meeting in [E.meetings]
    is still present. *)
Theorem C2_delete_employee_cascades (s : Store) (E : Employee.t) :
  reachable s -> In E (employees s) ->
  let r := delete_Employee (Employee.id E) s in
  snd r = None /\
  ~ In (Employee.id E) (employee_ids (fst r)) /\
  (forall a, In a (assignments (fst r)) ->
     Assignment.employee_id a <> Some (Employee.id E)) /\
  (forall x, In x (employees_meetings (fst r)) -> fst x <> Employee.id E) /\
  (forall P, In (Some P) (Employee_projects s E) -> In P (projects (fst r))) /\
  (forall M, In M (Employee_meetings s E) -> In M (meetings (fst r))) /\
  assignments (fst r) =
    filter (fun a => negb (holds (Assignment.employee_id a) (Employee.id E)))
      (assignments s) /\
  employees_meetings (fst r) =
    filter (fun x => negb (fst x =? Employee.id E)) (employees_meetings s) /\
  employees (fst r) =
    filter (fun x => negb (Employee.id x =? Employee.id E)) (employees s) /\
  projects (fst r) = projects s /\
  meetings (fst r) = meetings s.
Proof.
  intros Hr HE. apply reachable_consistent in Hr.
  rewrite (delete_Employee_ok s E Hr HE). cbn [fst snd].
  split; [reflexivity|].
  split; [|split; [|split; [|split; [|split; [|repeat split]]]]].
  - unfold employee_ids. cbn [employees]. intros H.
    apply in_map_iff in H. destruct H as (x & Hx & Hin).
    apply filter_In in Hin. destruct Hin as [_ Hne].
    rewrite Hx, Z.eqb_refl in Hne. discriminate.
  - cbn [assignments]. intros a Ha Heq. apply filter_In in Ha.
    destruct Ha as [_ Hne]. rewrite Heq in Hne. simpl in Hne.
    rewrite Z.eqb_refl in Hne. discriminate.
  - cbn [employees_meetings]. intros x Hx Heq. apply filter_In in Hx.
    destruct Hx as [_ Hne]. rewrite Heq, Z.eqb_refl in Hne. discriminate.
  - cbn [projects]. intros P HP. apply in_map_iff in HP.
    destruct HP as (a & Ha & _). apply Assignment_project_Some in Ha. tauto.
  - cbn [meetings]. intros M HM. apply in_flat_map in HM.
    destruct HM as (x & _ & HM).
    destruct (fst x =? Employee.id E); [|contradiction].
    destruct (get_meeting s (snd x)) as [M'|] eqn:G; [|contradiction].
    destruct HM as [<-|[]]. apply find_key_some in G. tauto.
Qed.

Lemma C2_delete_employee_cascades_witness :
  let r := delete_Employee 1 busy_office in
  snd r = None /\
  ~ In 1 (employee_ids (fst r)) /\
  (forall a, In a (assignments (fst r)) -> Assignment.employee_id a <> Some 1) /\
  (forall x, In x (employees_meetings (fst r)) -> fst x <> 1) /\
  (forall P, In (Some P) (Employee_projects busy_office john) ->
     In P (projects (fst r))) /\
  (forall M, In M (Employee_meetings busy_office john) ->
     In M (meetings (fst r))) /\
  assignments (fst r) =
    filter (fun a => negb (holds (Assignment.employee_id a) 1))
      (assignments busy_office) /\
  employees_meetings (fst r) =
    filter (fun x => negb (fst x =? 1)) (employees_meetings busy_office) /\
  employees (fst r) =
    filter (fun x => negb (Employee.id x =? 1)) (employees busy_office) /\
  projects (fst r) = projects busy_office /\
  meetings (fst r) = meetings busy_office.
Proof.
  apply (C2_delete_employee_cascades busy_office john).
  - exact busy_office_reachable.
  - vm_compute. left. reflexivity.
Defined.

(** C3, as stated, fails: both foreign keys of [assignments] are nullable,
    so adding an assignment without employee and project reaches a state with
    an assignment that references no employee. *)
Lemma C3_counterexample :
  reachable (run [AddAssignment None None None None None] empty_store) /\
  ~ strict_referential_integrity
      (run [AddAssignment None None None None None] empty_store).
Proof.
  split.
  - apply run_reachable. constructor.
  - intros H.
    destruct (H (Assignment.mk 1 None None None None None)) as [(E & _ & HE) _].
    + vm_compute. left. reflexivity.
    + discriminate HE.
Qed.

(** C3, amended.  In every reachable state (whatever sequence of create,
    update, delete, append and remove operations led to it), the
    [employee_id] of every assignment is NULL or the [id] of an existing
    employee, and its [project_id] is NULL or the [id] of an existing
    project. *)
Theorem C3_referential_integrity (s : Store) :
  reachable s -> referential_integrity s.
Proof.
  intros Hr. apply reachable_consistent in Hr. intros a Ha. split.
  - destruct (Assignment.employee_id a) as [e|] eqn:He; [right|left; reflexivity].
    pose proof (fk_assignments_employee_id_employees s Hr a e Ha He) as Hin.
    apply in_map_iff in Hin. destruct Hin as (E & <- & HE). eauto.
  - destruct (Assignment.project_id a) as [p|] eqn:Hp; [right|left; reflexivity].
    pose proof (fk_assignments_project_id_projects s Hr a p Ha Hp) as Hin.
    apply in_map_iff in Hin. destruct Hin as (P & <- & HP). eauto.
Qed.

Lemma C3_referential_integrity_witness : referential_integrity busy_office.
Proof.
  apply (C3_referential_integrity busy_office).
  exact busy_office_reachable.
Defined.




(** C5.  Deleting a project [P] of a reachable store succeeds and removes
    the row of [P] and every assignment with [project_id = P.id]: the
    assignments left are exactly the other rows, unchanged, none kept with
    its key set to NULL.  The employees are the rows they were, so every
    employee in [P.employees] is still present. *)
Theorem C5_delete_project_cascades (s : Store) (P : Project.t) :
  reachable s -> In P (projects s) ->
  let r := delete_Project (Project.id P) s in
  snd r = None /\
  ~ In (Project.id P) (project_ids (fst r)) /\
  (forall a, In a (assignments (fst r)) ->
     Assignment.project_id a <> Some (Project.id P)) /\
  employees (fst r) = employees s /\
  (forall E, In (Some E) (Project_employees s P) -> In E (employees (fst r))) /\
  assignments (fst r) =
    filter (fun a => negb (holds (Assignment.project_id a) (Project.id P)))
      (assignments s) /\
  projects (fst r) =
    filter (fun x => negb (Project.id x =? Project.id P)) (projects s).
Proof.
  intros Hr HP. apply reachable_consistent in Hr.
  rewrite (delete_Project_ok s P Hr HP). cbn [fst snd].
  split; [reflexivity|].
  split; [|split; [|split; [reflexivity|split; [|split; reflexivity]]]].
  - unfold project_ids. cbn [projects]. intros H.
    apply in_map_iff in H. destruct H as (x & Hx & Hin).
    apply filter_In in Hin. destruct Hin as [_ Hne].
    rewrite Hx, Z.eqb_refl in Hne. discriminate.
  - cbn [assignments]. intros a Ha Heq. apply filter_In in Ha.
    destruct Ha as [_ Hne]. rewrite Heq in Hne. simpl in Hne.
    rewrite Z.eqb_refl in Hne. discriminate.
  - cbn [employees]. intros E HE. apply in_map_iff in HE.
    destruct HE as (a & Ha & _). apply Assignment_employee_Some in Ha. tauto.
Qed.

Lemma C5_delete_project_cascades_witness :
  let r := delete_Project 1 busy_office in
  snd r = None /\
  ~ In 1 (project_ids (fst r)) /\
  (forall a, In a (assignments (fst r)) -> Assignment.project_id a <> Some 1) /\
  employees (fst r) = employees busy_office /\
  (forall E, In (Some E) (Project_employees busy_office kickoff) ->
     In E (employees (fst r))) /\
  assignments (fst r) =
    filter (fun a => negb (holds (Assignment.project_id a) 1))
      (assignments busy_office) /\
  projects (fst r) =
    filter (fun x => negb (Project.id x =? 1)) (projects busy_office).
Proof.
  apply (C5_delete_project_cascades busy_office kickoff).
  - exact busy_office_reachable.
  - vm_compute. left. reflexivity.
Defined.

(** C6.  Deleting a meeting [M] of a reachable store succeeds and removes
    the row of [M]; afterwards no row of [employees_meetings] has
    [meeting_id = M.id], and the employees are the rows they were, so every
    employee in [M.employees] is still present. *)
Theorem C6_delete_meeting_unlinks (s : Store) (M : Meeting.t) :
  reachable s -> In M (meetings s) ->
  let r := delete_Meeting (Meeting.id M) s in
  snd r = None /\
  ~ In (Meeting.id M) (meeting_ids (fst r)) /\
  (forall x, In x (employees_meetings (fst r)) -> snd x <> Meeting.id M) /\
  employees (fst r) = employees s /\
  (forall E, In E (Meeting_employees s M) -> In E (employees (fst r))).
Proof.
  intros Hr HM. apply reachable_consistent in Hr.
  rewrite (delete_Meeting_ok s M Hr HM). cbn [fst snd].
  split; [reflexivity|]. repeat split.
  - unfold meeting_ids. cbn [meetings]. intros H.
    apply in_map_iff in H. destruct H as (x & Hx & Hin).
    apply filter_In in Hin. destruct Hin as [_ Hne].
    rewrite Hx, Z.eqb_refl in Hne. discriminate.
  - cbn [employees_meetings]. intros x Hx Heq. apply filter_In in Hx.
    destruct Hx as [_ Hne]. rewrite Heq, Z.eqb_refl in Hne. discriminate.
  - cbn [employees]. intros E HE. apply in_flat_map in HE.
    destruct HE as (x & _ & HE).
    destruct (snd x =? Meeting.id M); [|contradiction].
    destruct (get_employee s (fst x)) as [E'|] eqn:G; [|contradiction].
    destruct HE as [<-|[]]. apply find_key_some in G. tauto.
Qed.

Lemma C6_delete_meeting_unlinks_witness :
  let r := delete_Meeting 1 busy_office in
  snd r = None /\
  ~ In 1 (meeting_ids (fst r)) /\
  (forall x, In x (employees_meetings (fst r)) -> snd x <> 1) /\
  employees (fst r) = employees busy_office /\
  (forall E, In E (Meeting_employees busy_office standup) ->
     In E (employees (fst r))).
Proof.
  apply (C6_delete_meeting_unlinks busy_office standup).
  - exact busy_office_reachable.
  - vm_compute. left. reflexivity.
Defined.

Lemma append_through_ok (v : View) (s : Store) (E : Employee.t) (P : Project.t) :
  consistent s -> In E (employees s) -> In P (projects s) ->
  append_through v E P s =
  (set_assignments s
     (assignments s ++ [link s (Employee.id E) (Project.id P)]), None).
Proof.
  intros Hs HE HP. destruct v; simpl.
  - apply Employee_projects_append_ok; assumption.
  - apply Project_employees_append_ok; assumption.
Qed.

Lemma append_through_rows (views : list View) (s : Store)
    (E : Employee.t) (P : Project.t) :
  consistent s -> In E (employees s) -> In P (projects s) ->
  exists added,
    assignments (fold_left (fun s v => fst (append_through v E P s)) views s) =
      assignments s ++ added /\
    List.length added = List.length views /\
    (forall a, In a added ->
       Assignment.employee_id a = Some (Employee.id E) /\
       Assignment.project_id a = Some (Project.id P) /\
       ~ In (Assignment.id a) (assignment_ids s)) /\
    NoDup (map Assignment.id added).
Proof.
  revert s. induction views as [|v views IH]; intros s Hs HE HP.
  - exists []. simpl. rewrite app_nil_r. repeat split; try constructor.
    all: contradiction.
  - cbn [fold_left]. rewrite (append_through_ok v s E P Hs HE HP). cbn [fst].
    set (s1 := set_assignments s
                 (assignments s ++ [link s (Employee.id E) (Project.id P)])).
    assert (Hs1 : consistent s1).
    { replace s1 with (fst (append_through Employee_projects_view E P s))
        by (rewrite append_through_ok; auto).
      apply (perform_consistent
               (EmployeeProjectsAppend (Employee.id E) (Project.id P))). exact Hs. }
    destruct (IH s1 Hs1 HE HP) as (added & Heq & Hlen & Hrows & Hnd).
    assert (Hids : assignment_ids s1 =
                   assignment_ids s ++ [next_id (assignment_ids s)]).
    { unfold assignment_ids, s1. cbn [assignments set_assignments].
      rewrite map_app. reflexivity. }
    exists (link s (Employee.id E) (Project.id P) :: added). repeat split.
    + rewrite Heq. unfold s1. cbn [assignments set_assignments].
      rewrite <- app_assoc. reflexivity.
    + simpl. rewrite Hlen. reflexivity.
    + destruct H as [<-|H]; [reflexivity|]. apply (Hrows a H).
    + destruct H as [<-|H]; [reflexivity|]. apply (Hrows a H).
    + destruct H as [<-|H].
      * apply next_id_fresh.
      * intros Hin. destruct (Hrows a H) as (_ & _ & Hnew). apply Hnew.
        rewrite Hids. apply in_or_app. left. exact Hin.
    + cbn [map]. constructor; [|exact Hnd].
      intros Hin. apply in_map_iff in Hin. destruct Hin as (a & Ha & Hin).
      destruct (Hrows a Hin) as (_ & _ & Hnew). apply Hnew.
      rewrite Hids, Ha. apply in_or_app. right. left. reflexivity.
Qed.

(** C7.  Appending the same employee [E] and project [P] again and again,
    through [E.projects] or [P.employees] in any order, leaves every
    assignment already stored as it was and adds one assignment per append:
    each added row links [E] to [P] under an identifier no earlier row has,
    and no two added rows share an identifier. *)
Theorem C7_append_never_mutates (views : list View) (s : Store)
    (E : Employee.t) (P : Project.t) :
  reachable s -> In E (employees s) -> In P (projects s) ->
  exists added,
    assignments (fold_left (fun s v => fst (append_through v E P s)) views s) =
      assignments s ++ added /\
    List.length added = List.length views /\
    (forall a, In a added ->
       Assignment.employee_id a = Some (Employee.id E) /\
       Assignment.project_id a = Some (Project.id P) /\
       ~ In (Assignment.id a) (assignment_ids s)) /\
    NoDup (map Assignment.id added).
Proof.
  intros Hr. apply append_through_rows. apply reachable_consistent. exact Hr.
Qed.

Lemma C7_append_never_mutates_witness :
  exists added,
    assignments
      (fold_left (fun s v => fst (append_through v john kickoff s))
         [Employee_projects_view; Project_employees_view; Employee_projects_view]
         busy_office) =
      assignments busy_office ++ added /\
    List.length added = 3%nat /\
    (forall a, In a added ->
       Assignment.employee_id a = Some 1 /\
       Assignment.project_id a = Some 1 /\
       ~ In (Assignment.id a) (assignment_ids busy_office)) /\
    NoDup (map Assignment.id added).
Proof.
  apply (C7_append_never_mutates
           [Employee_projects_view; Project_employees_view; Employee_projects_view]
           busy_office john kickoff).
  - exact busy_office_reachable.
  - vm_compute. left. reflexivity.
  - vm_compute. left. reflexivity.
Defined.

(** C8.  In a reachable state no pair occurs twice in [employees_meetings];
    and for an employee [E] and a meeting [M] with no row for their pair,
    [E.meetings.append(M)] and [M.employees.append(E)] each succeed and add
    the one row [(E.id, M.id)] to the rows already there, so that the pair
    occurs exactly once afterwards. *)
Theorem C8_join_rows_unique (s : Store) :
  reachable s ->
  NoDup (employees_meetings s) /\
  forall E M, In E (employees s) -> In M (meetings s) ->
    ~ In (Employee.id E, Meeting.id M) (employees_meetings s) ->
    (let r := Employee_meetings_append (Employee.id E) (Meeting.id M) s in
     snd r = None /\
     employees_meetings (fst r) =
       employees_meetings s ++ [(Employee.id E, Meeting.id M)] /\
     count_occ row_eq_dec (employees_meetings (fst r))
       (Employee.id E, Meeting.id M) = 1%nat) /\
    (let r := Meeting_employees_append (Meeting.id M) (Employee.id E) s in
     snd r = None /\
     employees_meetings (fst r) =
       employees_meetings s ++ [(Employee.id E, Meeting.id M)] /\
     count_occ row_eq_dec (employees_meetings (fst r))
       (Employee.id E, Meeting.id M) = 1%nat).
Proof.
  intros Hr. apply reachable_consistent in Hr.
  split; [apply Hr|]. intros E M HE HM Hnew.
  assert (Hcount : count_occ row_eq_dec
            (employees_meetings s ++ [(Employee.id E, Meeting.id M)])
            (Employee.id E, Meeting.id M) = 1%nat).
  { rewrite count_occ_app. cbn [count_occ].
    destruct (row_eq_dec (Employee.id E, Meeting.id M)
                (Employee.id E, Meeting.id M)) as [_|Hne]; [|contradiction].
    rewrite (proj1 (count_occ_not_In _ _ _) Hnew). reflexivity. }
  rewrite (Employee_meetings_append_ok s E M Hr HE HM Hnew).
  rewrite (Meeting_employees_append_ok s E M Hr HE HM Hnew).
  cbn [fst snd employees_meetings set_employees_meetings]. auto.
Qed.

Lemma C8_join_rows_unique_witness :
  NoDup (employees_meetings office) /\
  (let r := Employee_meetings_append 1 1 office in
   snd r = None /\
   employees_meetings (fst r) = employees_meetings office ++ [(1, 1)] /\
   count_occ row_eq_dec (employees_meetings (fst r)) (1, 1) = 1%nat) /\
  (let r := Meeting_employees_append 1 1 office in
   snd r = None /\
   employees_meetings (fst r) = employees_meetings office ++ [(1, 1)] /\
   count_occ row_eq_dec (employees_meetings (fst r)) (1, 1) = 1%nat).
Proof.
  destruct (C8_join_rows_unique office office_reachable) as [Hkey Happend].
  split; [exact Hkey|].
  apply (Happend john standup).
  - vm_compute. left. reflexivity.
  - vm_compute. left. reflexivity.
  - vm_compute. intros [].
Defined.

(** C9.  In a reachable state, removing an assignment [A] from
    [E.assignments] or from [P.assignments], or removing a project [P] from
    [E.projects] (which removes the first assignment of [E] whose project is
    [P]), deletes the row of that assignment: its identifier is gone from
    [assignments], and the rows left are the other rows, unchanged; none is
    kept with a foreign key set to NULL. *)
Theorem C9_delete_orphan (s : Store) :
  reachable s ->
  (forall E A, In E (employees s) -> In A (Employee_assignments s E) ->
     let r := Employee_assignments_remove (Employee.id E) (Assignment.id A) s in
     snd r = None /\
     ~ In (Assignment.id A) (assignment_ids (fst r)) /\
     assignments (fst r) =
       filter (fun x => negb (Assignment.id x =? Assignment.id A)) (assignments s)) /\
  (forall P A, In P (projects s) -> In A (Project_assignments s P) ->
     let r := Project_assignments_remove (Project.id P) (Assignment.id A) s in
     snd r = None /\
     ~ In (Assignment.id A) (assignment_ids (fst r)) /\
     assignments (fst r) =
       filter (fun x => negb (Assignment.id x =? Assignment.id A)) (assignments s)) /\
  (forall E P, In E (employees s) -> In (Some P) (Employee_projects s E) ->
     let r := Employee_projects_remove (Employee.id E) (Project.id P) s in
     exists A,
       In A (Employee_assignments s E) /\
       Assignment.project_id A = Some (Project.id P) /\
       snd r = None /\
       ~ In (Assignment.id A) (assignment_ids (fst r)) /\
       assignments (fst r) =
         filter (fun x => negb (Assignment.id x =? Assignment.id A)) (assignments s)).
Proof.
  intros Hr. apply reachable_consistent in Hr.
  assert (Hgone : forall A,
            ~ In (Assignment.id A)
                (map Assignment.id
                   (filter (fun x => negb (Assignment.id x =? Assignment.id A))
                      (assignments s)))).
  { intros A H. apply in_map_iff in H. destruct H as (x & Hx & Hin).
    apply filter_In in Hin. destruct Hin as [_ Hne].
    rewrite Hx, Z.eqb_refl in Hne. discriminate. }
  split; [|split].
  - intros E A HE HA. rewrite (Employee_assignments_remove_ok s E A Hr HE HA).
    cbn [fst snd]. unfold assignment_ids. cbn [assignments set_assignments]. auto.
  - intros P A HP HA. rewrite (Project_assignments_remove_ok s P A Hr HP HA).
    cbn [fst snd]. unfold assignment_ids. cbn [assignments set_assignments]. auto.
  - intros E P HE HP.
    destruct (Employee_projects_remove_ok s E P Hr HE HP) as (A & HA & HAp & Heq).
    exists A. rewrite Heq.
    cbn [fst snd]. unfold assignment_ids. cbn [assignments set_assignments]. auto.
Qed.

Lemma C9_delete_orphan_witness :
  let r := Employee_projects_remove 1 1 busy_office in
  exists A,
    In A (Employee_assignments busy_office john) /\
    Assignment.project_id A = Some 1 /\
    snd r = None /\
    ~ In (Assignment.id A) (assignment_ids (fst r)) /\
    assignments (fst r) =
      filter (fun x => negb (Assignment.id x =? Assignment.id A))
        (assignments busy_office).
Proof.
  destruct (C9_delete_orphan busy_office busy_office_reachable) as (_ & _ & H).
  apply (H john kickoff).
  - vm_compute. left. reflexivity.
  - vm_compute. left. reflexivity.
Defined.



(* ================================================================== *)
(** * Part 9.  Further properties of the schema *)
(* ================================================================== *)

(** ** Keys, lookups and the two sides of each relationship *)

Lemma find_key_present {A : Type} (key : A -> Z) (l : list A) (i : Z) :
  In i (map key l) -> exists x, find (fun y => key y =? i) l = Some x.
Proof.
  intros H. destruct (find (fun y => key y =? i) l) as [x|] eqn:E; [eauto|].
  exfalso. exact (find_key_none key l i E H).
Qed.

Lemma get_by_key {A : Type} (key : A -> Z) (l : list A) (i : Z) (x : A) :
  NoDup (map key l) ->
  (find (fun y => key y =? i) l = Some x <-> In x l /\ key x = i).
Proof.
  intros Hnd. split.
  - apply find_key_some.
  - intros [Hin <-]. apply find_by_key; assumption.
Qed.

(** X1.  In every reachable state the [id] of each of the four tables is a
    key, and fetching by [id] returns a row exactly when it is the row of
    the table with that [id]. *)
Theorem X1_primary_key_lookup (s : Store) :
  reachable s ->
  (NoDup (employee_ids s) /\
   forall i E, get_employee s i = Some E <-> In E (employees s) /\ Employee.id E = i) /\
  (NoDup (meeting_ids s) /\
   forall i M, get_meeting s i = Some M <-> In M (meetings s) /\ Meeting.id M = i) /\
  (NoDup (project_ids s) /\
   forall i P, get_project s i = Some P <-> In P (projects s) /\ Project.id P = i) /\
  (NoDup (assignment_ids s) /\
   forall i A, get_assignment s i = Some A <->
               In A (assignments s) /\ Assignment.id A = i).
Proof.
  intros Hr. apply reachable_consistent in Hr.
  destruct Hr as [K1 K2 K3 K4 _ _ _ _ _].
  unfold get_employee, get_meeting, get_project, get_assignment.
  refine (conj (conj K1 _) (conj (conj K2 _) (conj (conj K3 _) (conj K4 _))));
    intros i x; apply get_by_key; assumption.
Qed.

Lemma X1_primary_key_lookup_witness :
  get_employee busy_office 1 = Some john /\
  get_meeting busy_office 1 = Some standup /\
  get_project busy_office 1 = Some kickoff.
Proof.
  destruct (X1_primary_key_lookup busy_office busy_office_reachable)
    as ((_ & HE) & (_ & HM) & (_ & HP) & _).
  split; [|split].
  - apply HE. vm_compute. split; [left|]; reflexivity.
  - apply HM. vm_compute. split; [left|]; reflexivity.
  - apply HP. vm_compute. split; [left|]; reflexivity.
Defined.

(** X2.  In every reachable state each row of [employees_meetings] names an
    existing employee and an existing meeting. *)
Theorem X2_join_rows_resolve (s : Store) :
  reachable s ->
  forall r, In r (employees_meetings s) ->
    (exists E, In E (employees s) /\ Employee.id E = fst r) /\
    (exists M, In M (meetings s) /\ Meeting.id M = snd r).
Proof.
  intros Hr r Hin. apply reachable_consistent in Hr. split.
  - pose proof (fk_employees_meetings_employee_id_employees s Hr r Hin) as H.
    apply in_map_iff in H. destruct H as (E & HE & HinE). eauto.
  - pose proof (fk_employees_meetings_meeting_id_meetings s Hr r Hin) as H.
    apply in_map_iff in H. destruct H as (M & HM & HinM). eauto.
Qed.

Lemma X2_join_rows_resolve_witness :
  (exists E, In E (employees busy_office) /\ Employee.id E = 1) /\
  (exists M, In M (meetings busy_office) /\ Meeting.id M = 1).
Proof.
  apply (X2_join_rows_resolve busy_office busy_office_reachable (1, 1)).
  vm_compute. left. reflexivity.
Defined.

(** X3.  In every reachable state the two sides of each one-to-many
    relationship agree: an assignment is in [E.assignments] exactly when its
    [employee] is [E], and in [P.assignments] exactly when its [project] is
    [P]. *)
Theorem X3_back_populates_agree (s : Store) :
  reachable s ->
  (forall E A, In E (employees s) ->
     (In A (Employee_assignments s E) <->
      In A (assignments s) /\ Assignment_employee s A = Some E)) /\
  (forall P A, In P (projects s) ->
     (In A (Project_assignments s P) <->
      In A (assignments s) /\ Assignment_project s A = Some P)).
Proof.
  intros Hr. apply reachable_consistent in Hr. split.
  - intros E A HE. unfold Employee_assignments. rewrite filter_In, holds_Some.
    split; intros [HA H]; (split; [exact HA|]).
    + unfold Assignment_employee. rewrite H. apply get_employee_In; assumption.
    + apply Assignment_employee_Some in H. tauto.
  - intros P A HP. unfold Project_assignments. rewrite filter_In, holds_Some.
    split; intros [HA H]; (split; [exact HA|]).
    + unfold Assignment_project. rewrite H. apply get_project_In; assumption.
    + apply Assignment_project_Some in H. tauto.
Qed.

Lemma X3_back_populates_agree_witness :
  In (link office 1 1) (Employee_assignments busy_office john) <->
  In (link office 1 1) (assignments busy_office) /\
  Assignment_employee busy_office (link office 1 1) = Some john.
Proof.
  destruct (X3_back_populates_agree busy_office busy_office_reachable) as [H _].
  apply (H john). vm_compute. left. reflexivity.
Defined.

(** X4.  In every reachable state [Employee.meetings] and
    [Meeting.employees] are the two sides of one relation: for an employee
    [E] and a meeting [M] of the store, [M] is in [E.meetings] exactly when
    [E] is in [M.employees], and exactly when [employees_meetings] has the
    row [(E.id, M.id)]. *)
Theorem X4_meetings_symmetric (s : Store) :
  reachable s ->
  forall E M, In E (employees s) -> In M (meetings s) ->
    (In M (Employee_meetings s E) <->
     In (Employee.id E, Meeting.id M) (employees_meetings s)) /\
    (In E (Meeting_employees s M) <->
     In (Employee.id E, Meeting.id M) (employees_meetings s)).
Proof.
  intros Hr E M HE HM. apply reachable_consistent in Hr. split.
  - unfold Employee_meetings. rewrite in_flat_map. split.
    + intros ([e m] & Hin & H). simpl in H.
      destruct (Z.eqb_spec e (Employee.id E)) as [->|]; [|contradiction].
      destruct (get_meeting s m) as [M'|] eqn:G; [|contradiction].
      destruct H as [->|[]]. apply find_key_some in G. destruct G as [_ <-].
      exact Hin.
    + intros Hin. exists (Employee.id E, Meeting.id M). split; [exact Hin|].
      simpl. rewrite Z.eqb_refl, (get_meeting_In s M Hr HM). left. reflexivity.
  - unfold Meeting_employees. rewrite in_flat_map. split.
    + intros ([e m] & Hin & H). simpl in H.
      destruct (Z.eqb_spec m (Meeting.id M)) as [->|]; [|contradiction].
      destruct (get_employee s e) as [E'|] eqn:G; [|contradiction].
      destruct H as [->|[]]. apply find_key_some in G. destruct G as [_ <-].
      exact Hin.
    + intros Hin. exists (Employee.id E, Meeting.id M). split; [exact Hin|].
      simpl. rewrite Z.eqb_refl, (get_employee_In s E Hr HE). left. reflexivity.
Qed.

Lemma X4_meetings_symmetric_witness :
  (In standup (Employee_meetings busy_office john) <->
   In (1, 1) (employees_meetings busy_office)) /\
  (In john (Meeting_employees busy_office standup) <->
   In (1, 1) (employees_meetings busy_office)).
Proof.
  apply (X4_meetings_symmetric busy_office busy_office_reachable john standup).
  - vm_compute. left. reflexivity.
  - vm_compute. left. reflexivity.
Defined.

(** An entry [P] of [E.projects] is an assignment with both keys. *)
Lemma Employee_projects_In (s : Store) (E : Employee.t) (P : Project.t) :
  consistent s -> In P (projects s) ->
  (In (Some P) (Employee_projects s E) <->
   exists a, In a (assignments s) /\
             Assignment.employee_id a = Some (Employee.id E) /\
             Assignment.project_id a = Some (Project.id P)).
Proof.
  intros Hs HP. unfold Employee_projects, Employee_assignments.
  rewrite in_map_iff. split.
  - intros (a & Hp & Ha). apply filter_In in Ha. destruct Ha as [Ha He].
    apply holds_Some in He. apply Assignment_project_Some in Hp.
    exists a. tauto.
  - intros (a & Ha & He & Hp). exists a. split.
    + unfold Assignment_project. rewrite Hp. apply get_project_In; assumption.
    + apply filter_In. split; [exact Ha|]. apply holds_Some. exact He.
Qed.

Lemma Project_employees_In (s : Store) (E : Employee.t) (P : Project.t) :
  consistent s -> In E (employees s) ->
  (In (Some E) (Project_employees s P) <->
   exists a, In a (assignments s) /\
             Assignment.employee_id a = Some (Employee.id E) /\
             Assignment.project_id a = Some (Project.id P)).
Proof.
  intros Hs HE. unfold Project_employees, Project_assignments.
  rewrite in_map_iff. split.
  - intros (a & He & Ha). apply filter_In in Ha. destruct Ha as [Ha Hp].
    apply holds_Some in Hp. apply Assignment_employee_Some in He.
    exists a. tauto.
  - intros (a & Ha & He & Hp). exists a. split.
    + unfold Assignment_employee. rewrite He. apply get_employee_In; assumption.
    + apply filter_In. split; [exact Ha|]. apply holds_Some. exact Hp.
Qed.

(** X5.  In every reachable state the two proxies show the same links: for
    an employee [E] and a project [P] of the store, [P] is in [E.projects]
    exactly when [E] is in [P.employees]. *)
Theorem X5_proxies_symmetric (s : Store) :
  reachable s ->
  forall E P, In E (employees s) -> In P (projects s) ->
    (In (Some P) (Employee_projects s E) <-> In (Some E) (Project_employees s P)).
Proof.
  intros Hr E P HE HP. apply reachable_consistent in Hr.
  rewrite (Employee_projects_In s E P Hr HP), (Project_employees_In s E P Hr HE).
  reflexivity.
Qed.

Lemma X5_proxies_symmetric_witness :
  In (Some kickoff) (Employee_projects busy_office john) <->
  In (Some john) (Project_employees busy_office kickoff).
Proof.
  apply (X5_proxies_symmetric busy_office busy_office_reachable john kickoff).
  - vm_compute. left. reflexivity.
  - vm_compute. left. reflexivity.
Defined.

(** ** Appending and removing, composed *)

Lemma set_employees_meetings_twice (s : Store) (l1 l2 : list (Z * Z)) :
  set_employees_meetings (set_employees_meetings s l1) l2 =
  set_employees_meetings s l2.
Proof. reflexivity. Qed.

Lemma set_assignments_twice (s : Store) (l1 l2 : list Assignment.t) :
  set_assignments (set_assignments s l1) l2 = set_assignments s l2.
Proof. reflexivity. Qed.


Lemma remove_when_linked (s : Store) (E : Employee.t) (M : Meeting.t) :
  consistent s -> In E (employees s) -> In M (meetings s) ->
  In (Employee.id E, Meeting.id M) (employees_meetings s) ->
  Employee_meetings_remove (Employee.id E) (Meeting.id M) s =
    (set_employees_meetings s
       (filter (fun r => negb ((fst r =? Employee.id E) && (snd r =? Meeting.id M)))
          (employees_meetings s)), None) /\
  Meeting_employees_remove (Meeting.id M) (Employee.id E) s =
    (set_employees_meetings s
       (filter (fun r => negb ((fst r =? Employee.id E) && (snd r =? Meeting.id M)))
          (employees_meetings s)), None).
Proof.
  intros Hs HE HM Hl. apply linked_In in Hl.
  unfold Employee_meetings_remove, Meeting_employees_remove.
  rewrite (get_employee_In s E Hs HE), (get_meeting_In s M Hs HM), Hl.
  split; reflexivity.
Qed.

Lemma filter_out_last (l : list (Z * Z)) (e m : Z) :
  ~ In (e, m) l ->
  filter (fun r => negb ((fst r =? e) && (snd r =? m))) (l ++ [(e, m)]) = l.
Proof.
  intros Hnew. rewrite filter_app. cbn [filter fst snd].
  rewrite !Z.eqb_refl. cbn [andb negb]. rewrite app_nil_r.
  apply filter_all. intros [e' m'] Hin. cbn [fst snd].
  apply negb_true_iff, andb_false_iff.
  destruct (Z.eqb_spec e' e) as [->|]; [right|left; reflexivity].
  destruct (Z.eqb_spec m' m) as [->|]; [contradiction|reflexivity].
Qed.



(** X7.  For an employee and a meeting that are not linked, appending the
    meeting and then removing it, each from either side, gives back the
    store as it was. *)
Theorem X7_meeting_append_remove (s : Store) (E : Employee.t) (M : Meeting.t) :
  reachable s -> In E (employees s) -> In M (meetings s) ->
  ~ In (Employee.id E, Meeting.id M) (employees_meetings s) ->
  let e := Employee.id E in
  let m := Meeting.id M in
  Employee_meetings_remove e m (fst (Employee_meetings_append e m s)) = (s, None) /\
  Meeting_employees_remove m e (fst (Employee_meetings_append e m s)) = (s, None) /\
  Employee_meetings_remove e m (fst (Meeting_employees_append m e s)) = (s, None) /\
  Meeting_employees_remove m e (fst (Meeting_employees_append m e s)) = (s, None).
Proof.
  intros Hr HE HM Hnew e m. apply reachable_consistent in Hr. subst e m.
  rewrite (Employee_meetings_append_ok s E M Hr HE HM Hnew).
  rewrite (Meeting_employees_append_ok s E M Hr HE HM Hnew). cbn [fst].
  set (s1 := set_employees_meetings s
               (employees_meetings s ++ [(Employee.id E, Meeting.id M)])).
  assert (Hs1 : consistent s1).
  { replace s1 with
      (fst (perform (EmployeeMeetingsAppend (Employee.id E) (Meeting.id M)) s)).
    - apply perform_consistent. exact Hr.
    - simpl. rewrite (Employee_meetings_append_ok s E M Hr HE HM Hnew).
      reflexivity. }
  assert (Hl1 : In (Employee.id E, Meeting.id M) (employees_meetings s1)).
  { unfold s1. cbn [employees_meetings set_employees_meetings].
    apply in_or_app. right. left. reflexivity. }
  destruct (remove_when_linked s1 E M Hs1 HE HM Hl1) as [-> ->].
  assert (Hback : set_employees_meetings s1
            (filter (fun r => negb ((fst r =? Employee.id E) && (snd r =? Meeting.id M)))
               (employees_meetings s1)) = s).
  { unfold s1. cbn [employees_meetings set_employees_meetings].
    rewrite (filter_out_last _ _ _ Hnew). destruct s; reflexivity. }
  rewrite Hback. repeat split.
Qed.

Lemma X7_meeting_append_remove_witness :
  Employee_meetings_remove 1 1 (fst (Employee_meetings_append 1 1 office)) =
    (office, None) /\
  Meeting_employees_remove 1 1 (fst (Employee_meetings_append 1 1 office)) =
    (office, None) /\
  Employee_meetings_remove 1 1 (fst (Meeting_employees_append 1 1 office)) =
    (office, None) /\
  Meeting_employees_remove 1 1 (fst (Meeting_employees_append 1 1 office)) =
    (office, None).
Proof.
  apply (X7_meeting_append_remove office john standup).
  - exact office_reachable.
  - vm_compute. left. reflexivity.
  - vm_compute. left. reflexivity.
  - vm_compute. intros [].
Defined.

Lemma find_app {A : Type} (f : A -> bool) (l1 l2 : list A) :
  find f (l1 ++ l2) =
  match find f l1 with
  | Some x => Some x
  | None => find f l2
  end.
Proof.
  induction l1 as [|a l1 IH]; simpl; [reflexivity|].
  destruct (f a); [reflexivity|exact IH].
Qed.

Lemma find_ext_in {A : Type} (f g : A -> bool) (l : list A) :
  (forall x, In x l -> f x = g x) -> find f l = find g l.
Proof.
  induction l as [|a l IH]; intros H; simpl; [reflexivity|].
  rewrite (H a) by (left; reflexivity).
  destruct (g a); [reflexivity|]. apply IH. intros x Hx. apply H. right. exact Hx.
Qed.

(** On a consistent store, "the project of [x] is [P]" is "[project_id]
    holds the key of [P]". *)
Lemma project_is (s : Store) (P : Project.t) (x : Assignment.t) :
  consistent s -> In x (assignments s) ->
  match Assignment_project s x with
  | Some P' => Project.id P' =? Project.id P
  | None => false
  end = holds (Assignment.project_id x) (Project.id P).
Proof.
  intros Hs Hx. unfold Assignment_project.
  destruct (Assignment.project_id x) as [q|] eqn:Hq; [|reflexivity].
  pose proof (fk_assignments_project_id_projects s Hs x q Hx Hq) as Hin.
  destruct (find_key_present Project.id (projects s) q Hin) as [Q HQ].
  unfold get_project. rewrite HQ. apply find_key_some in HQ.
  destruct HQ as [_ ->]. reflexivity.
Qed.

(** [E.projects.remove(P)] deletes the first assignment of [E] whose
    [project_id] is the key of [P], and raises [ValueError] when [E] has
    none. *)
Lemma Employee_projects_remove_first (s : Store) (E : Employee.t) (P : Project.t) :
  consistent s -> In E (employees s) -> In P (projects s) ->
  Employee_projects_remove (Employee.id E) (Project.id P) s =
  match find (fun x => holds (Assignment.project_id x) (Project.id P))
          (Employee_assignments s E) with
  | Some A =>
      (set_assignments s
         (filter (fun x => negb (Assignment.id x =? Assignment.id A)) (assignments s)),
       None)
  | None => (s, Some ValueError)
  end.
Proof.
  intros Hs HE HP. unfold Employee_projects_remove.
  rewrite (get_employee_In s E Hs HE), (get_project_In s P Hs HP).
  rewrite (find_ext_in _ (fun x => holds (Assignment.project_id x) (Project.id P))).
  - destruct (find _ (Employee_assignments s E)) as [A|]; [|reflexivity].
    apply commit_orphan.
  - intros x Hx. apply filter_In in Hx. apply project_is; tauto.
Qed.

Lemma append_consistent (s : Store) (E : Employee.t) (P : Project.t) :
  consistent s -> In E (employees s) -> In P (projects s) ->
  consistent (set_assignments s
                (assignments s ++ [link s (Employee.id E) (Project.id P)])).
Proof.
  intros Hs HE HP.
  replace (set_assignments s _) with
    (fst (perform (EmployeeProjectsAppend (Employee.id E) (Project.id P)) s)).
  - apply perform_consistent. exact Hs.
  - simpl. rewrite (Employee_projects_append_ok s E P Hs HE HP). reflexivity.
Qed.

(** The assignments of [E] after one more link to [P]. *)
Lemma Employee_assignments_snoc (s : Store) (E : Employee.t) (p : Z) :
  Employee_assignments
    (set_assignments s (assignments s ++ [link s (Employee.id E) p])) E =
  Employee_assignments s E ++ [link s (Employee.id E) p].
Proof.
  unfold Employee_assignments. cbn [assignments set_assignments].
  rewrite filter_app. cbn [filter link Assignment.employee_id holds].
  rewrite Z.eqb_refl. reflexivity.
Qed.

Lemma filter_out_fresh (l : list Assignment.t) (a : Assignment.t) :
  ~ In (Assignment.id a) (map Assignment.id l) ->
  filter (fun x => negb (Assignment.id x =? Assignment.id a)) l = l.
Proof.
  intros Hnew. apply filter_all. intros x Hx.
  apply negb_true_iff, Z.eqb_neq. intros Heq. apply Hnew.
  rewrite <- Heq. apply in_map. exact Hx.
Qed.

(** X8.  For an employee [E] with no assignment to the project [P],
    [E.projects.append(P)] followed by [E.projects.remove(P)] gives back the
    store as it was. *)
Theorem X8_proxy_append_remove (s : Store) (E : Employee.t) (P : Project.t) :
  reachable s -> In E (employees s) -> In P (projects s) ->
  ~ In (Some P) (Employee_projects s E) ->
  Employee_projects_remove (Employee.id E) (Project.id P)
    (fst (Employee_projects_append (Employee.id E) (Project.id P) s)) = (s, None).
Proof.
  intros Hr HE HP Hnone. apply reachable_consistent in Hr.
  rewrite (Employee_projects_append_ok s E P Hr HE HP). cbn [fst].
  rewrite (Employee_projects_remove_first _ E P (append_consistent s E P Hr HE HP) HE HP).
  rewrite Employee_assignments_snoc, find_app.
  destruct (find _ (Employee_assignments s E)) as [A|] eqn:F.
  - exfalso. apply Hnone. apply find_some in F. destruct F as [HA Hp].
    apply filter_In in HA. destruct HA as [HA He].
    apply (Employee_projects_In s E P Hr HP). exists A.
    apply holds_Some in He, Hp. auto.
  - cbn [find link Assignment.project_id holds]. rewrite Z.eqb_refl.
    cbn [assignments set_assignments]. rewrite set_assignments_twice.
    rewrite filter_app. cbn [filter Assignment.id]. rewrite Z.eqb_refl.
    cbn [negb]. rewrite app_nil_r.
    rewrite (filter_out_fresh (assignments s)
               (link s (Employee.id E) (Project.id P)))
      by apply next_id_fresh.
    rewrite set_assignments_same. reflexivity.
Qed.

Lemma X8_proxy_append_remove_witness :
  Employee_projects_remove 1 1 (fst (Employee_projects_append 1 1 office)) =
  (office, None).
Proof.
  apply (X8_proxy_append_remove office john kickoff).
  - exact office_reachable.
  - vm_compute. left. reflexivity.
  - vm_compute. left. reflexivity.
  - vm_compute. intros [].
Defined.

(** X9.  For an employee [E] already assigned to the project [P],
    [E.projects.append(P)] followed by [E.projects.remove(P)] does not undo
    the append: the row deleted is the oldest assignment of [E] to [P], and
    the row just appended stays. *)
Theorem X9_proxy_remove_oldest (s : Store) (E : Employee.t) (P : Project.t) :
  reachable s -> In E (employees s) -> In P (projects s) ->
  In (Some P) (Employee_projects s E) ->
  exists A0,
    find (fun x => holds (Assignment.project_id x) (Project.id P))
      (Employee_assignments s E) = Some A0 /\
    Employee_projects_remove (Employee.id E) (Project.id P)
      (fst (Employee_projects_append (Employee.id E) (Project.id P) s)) =
    (set_assignments s
       (filter (fun x => negb (Assignment.id x =? Assignment.id A0)) (assignments s)
        ++ [link s (Employee.id E) (Project.id P)]), None).
Proof.
  intros Hr HE HP Hin. apply reachable_consistent in Hr.
  apply (Employee_projects_In s E P Hr HP) in Hin.
  destruct Hin as (a & Ha & He & Hp).
  destruct (find_exists
              (fun x => holds (Assignment.project_id x) (Project.id P))
              (Employee_assignments s E) a) as [A0 F].
  { apply filter_In. split; [exact Ha|]. apply holds_Some. exact He. }
  { apply holds_Some. exact Hp. }
  exists A0. split; [exact F|].
  rewrite (Employee_projects_append_ok s E P Hr HE HP). cbn [fst].
  rewrite (Employee_projects_remove_first _ E P (append_consistent s E P Hr HE HP) HE HP).
  rewrite Employee_assignments_snoc, find_app, F.
  cbn [assignments set_assignments]. rewrite set_assignments_twice.
  rewrite filter_app. cbn [filter link Assignment.id].
  apply find_some in F. destruct F as [HA0 _]. apply filter_In in HA0.
  destruct HA0 as [HA0 _].
  pose proof (next_id_above (assignment_ids s) (Assignment.id A0)
                (in_map Assignment.id _ _ HA0)) as Hlt.
  destruct (Z.eqb_spec (next_id (assignment_ids s)) (Assignment.id A0)) as [Heq|_];
    [lia|]. reflexivity.
Qed.

Lemma X9_proxy_remove_oldest_witness :
  exists A0,
    find (fun x => holds (Assignment.project_id x) 1)
      (Employee_assignments busy_office john) = Some A0 /\
    Employee_projects_remove 1 1 (fst (Employee_projects_append 1 1 busy_office)) =
    (set_assignments busy_office
       (filter (fun x => negb (Assignment.id x =? Assignment.id A0))
          (assignments busy_office)
        ++ [link busy_office 1 1]), None).
Proof.
  apply (X9_proxy_remove_oldest busy_office john kickoff).
  - exact busy_office_reachable.
  - vm_compute. left. reflexivity.
  - vm_compute. left. reflexivity.
  - vm_compute. left. reflexivity.
Defined.

(** ** The [__repr__] methods *)

Lemma str_int_inj (a b : Z) : str_int a = str_int b -> a = b.
Proof.
  unfold str_int. intros H.
  apply (f_equal NilEmpty.int_of_string) in H.
  rewrite !NilEmpty.isi in H. injection H as H.
  apply (f_equal Z.of_int) in H. rewrite !DecimalZ.of_to in H. exact H.
Qed.

Lemma string_of_uint_comma_free (d : Decimal.uint) :
  comma_free (NilEmpty.string_of_uint d).
Proof.
  induction d; simpl; try exact I; (split; [discriminate|assumption]).
Qed.

Lemma str_int_comma_free (n : Z) : comma_free (str_int n).
Proof.
  unfold str_int. destruct (Z.to_int n) as [d|d]; simpl.
  - apply string_of_uint_comma_free.
  - split; [discriminate|apply string_of_uint_comma_free].
Qed.

(** Two texts that agree up to and after a first comma agree before it. *)
Lemma before_comma (a b r1 r2 : string) :
  comma_free a -> comma_free b ->
  (a ++ String "," r1)%string = (b ++ String "," r2)%string -> a = b.
Proof.
  revert b. induction a as [|ch a IH]; intros [|ch' b] Ha Hb H; simpl in *.
  - reflexivity.
  - injection H as H _. destruct Hb as [Hb _]. congruence.
  - injection H as H _. destruct Ha as [Ha _]. congruence.
  - injection H as -> H. f_equal. apply IH; tauto.
Qed.

Lemma same_key_same_row {A : Type} (key : A -> Z) (l : list A) (x y : A) :
  NoDup (map key l) -> In x l -> In y l -> key x = key y -> x = y.
Proof.
  intros Hnd Hx Hy Heq.
  pose proof (find_by_key key l x Hnd Hx) as Fx.
  pose proof (find_by_key key l y Hnd Hy) as Fy.
  rewrite Heq in Fx. rewrite Fx in Fy. injection Fy as ->. reflexivity.
Qed.

(** X10.  In a reachable state, [repr] of a stored assignment raises
    [AttributeError] exactly when its [employee_id] or its [project_id] is
    NULL; otherwise it returns the text built from the row, the name of its
    employee and the title of its project. *)
Theorem X10_assignment_repr (s : Store) (a : Assignment.t) :
  reachable s -> In a (assignments s) ->
  (Assignment_repr s a = inr AttributeError <->
   Assignment.employee_id a = None \/ Assignment.project_id a = None) /\
  (forall e p, Assignment.employee_id a = Some e -> Assignment.project_id a = Some p ->
     exists E P,
       In E (employees s) /\ Employee.id E = e /\
       In P (projects s) /\ Project.id P = p /\
       Assignment_repr s a =
       inl ("<Assignment " ++ str_int (Assignment.id a) ++ ", "
            ++ str_option str_str (Assignment.role a) ++ ", "
            ++ str_option str_datetime (Assignment.start_date a) ++ ", "
            ++ str_option str_datetime (Assignment.end_date a) ++ ", "
            ++ str_option str_str (Employee.name E) ++ ", "
            ++ str_option str_str (Project.title P) ++ ">")%string).
Proof.
  intros Hr Ha. apply reachable_consistent in Hr.
  assert (Hboth : forall e p,
            Assignment.employee_id a = Some e -> Assignment.project_id a = Some p ->
            exists E P,
              In E (employees s) /\ Employee.id E = e /\
              In P (projects s) /\ Project.id P = p /\
              Assignment_employee s a = Some E /\ Assignment_project s a = Some P).
  { intros e p He Hp.
    pose proof (fk_assignments_employee_id_employees s Hr a e Ha He) as HinE.
    pose proof (fk_assignments_project_id_projects s Hr a p Ha Hp) as HinP.
    destruct (find_key_present Employee.id (employees s) e HinE) as [E FE].
    destruct (find_key_present Project.id (projects s) p HinP) as [P FP].
    exists E, P. unfold Assignment_employee, Assignment_project.
    rewrite He, Hp. unfold get_employee, get_project. rewrite FE, FP.
    apply find_key_some in FE, FP. tauto. }
  split.
  - split.
    + intros H.
      destruct (Assignment.employee_id a) as [e|] eqn:He; [|left; reflexivity].
      destruct (Assignment.project_id a) as [p|] eqn:Hp; [|right; reflexivity].
      exfalso. destruct (Hboth e p eq_refl eq_refl) as (E & P & _ & _ & _ & _ & HE & HP).
      unfold Assignment_repr in H. rewrite HE, HP in H. discriminate H.
    + intros [He|Hp]; unfold Assignment_repr, Assignment_employee, Assignment_project.
      * rewrite He. reflexivity.
      * rewrite Hp. destruct (Assignment.employee_id a) as [e|]; [|reflexivity].
        destruct (get_employee s e); reflexivity.
  - intros e p He Hp.
    destruct (Hboth e p He Hp) as (E & P & H1 & H2 & H3 & H4 & HE & HP).
    exists E, P. unfold Assignment_repr. rewrite HE, HP. tauto.
Qed.

Lemma X10_assignment_repr_witness :
  Assignment_repr (fst (add_Assignment None None None None (Some 1) office))
    (Assignment.mk 1 None None None None (Some 1)) = inr AttributeError.
Proof.
  apply (X10_assignment_repr
           (fst (add_Assignment None None None None (Some 1) office))
           (Assignment.mk 1 None None None None (Some 1))).
  - apply (reachable_step office (AddAssignment None None None None (Some 1))).
    exact office_reachable.
  - vm_compute. left. reflexivity.
  - left. reflexivity.
Defined.

(** X11.  In a reachable state [repr] tells the rows of a table apart: two
    employees, two meetings or two projects of the store with the same
    [repr] are the same row, the text naming the [id] before its first
    comma. *)
Theorem X11_repr_identifies_row (s : Store) :
  reachable s ->
  (forall E1 E2, In E1 (employees s) -> In E2 (employees s) ->
     Employee_repr E1 = Employee_repr E2 -> E1 = E2) /\
  (forall M1 M2, In M1 (meetings s) -> In M2 (meetings s) ->
     Meeting_repr M1 = Meeting_repr M2 -> M1 = M2) /\
  (forall P1 P2, In P1 (projects s) -> In P2 (projects s) ->
     Project_repr P1 = Project_repr P2 -> P1 = P2).
Proof.
  intros Hr. apply reachable_consistent in Hr.
  destruct Hr as [K1 K2 K3 _ _ _ _ _ _].
  split; [|split].
  - intros E1 E2 H1 H2 H. apply (same_key_same_row Employee.id (employees s)); auto.
    unfold Employee_repr in H. cbn [String.append] in H. injection H as H.
    apply str_int_inj. eapply before_comma; [| |exact H]; apply str_int_comma_free.
  - intros M1 M2 H1 H2 H. apply (same_key_same_row Meeting.id (meetings s)); auto.
    unfold Meeting_repr in H. cbn [String.append] in H. injection H as H.
    apply str_int_inj. eapply before_comma; [| |exact H]; apply str_int_comma_free.
  - intros P1 P2 H1 H2 H. apply (same_key_same_row Project.id (projects s)); auto.
    unfold Project_repr in H. cbn [String.append] in H. injection H as H.
    apply str_int_inj. eapply before_comma; [| |exact H]; apply str_int_comma_free.
Qed.

Lemma X11_repr_identifies_row_witness :
  (forall E1 E2, In E1 (employees busy_office) -> In E2 (employees busy_office) ->
     Employee_repr E1 = Employee_repr E2 -> E1 = E2) /\
  (forall M1 M2, In M1 (meetings busy_office) -> In M2 (meetings busy_office) ->
     Meeting_repr M1 = Meeting_repr M2 -> M1 = M2) /\
  (forall P1 P2, In P1 (projects busy_office) -> In P2 (projects busy_office) ->
     Project_repr P1 = Project_repr P2 -> P1 = P2).
Proof.
  apply (X11_repr_identifies_row busy_office).
  exact busy_office_reachable.
Defined.

(** ** What a delete leaves alone *)

Lemma flat_map_filter_skip {A B : Type} (g : A -> list B) (p : A -> bool)
    (l : list A) :
  (forall x, p x = false -> g x = []) -> flat_map g (filter p l) = flat_map g l.
Proof.
  intros H. induction l as [|a l IH]; simpl; [reflexivity|].
  destruct (p a) eqn:E; simpl; rewrite IH; [reflexivity|].
  rewrite (H a E). reflexivity.
Qed.

Lemma find_filter_other {A : Type} (key : A -> Z) (l : list A) (i j : Z) :
  i <> j ->
  find (fun x => key x =? i) (filter (fun x => negb (key x =? j)) l) =
  find (fun x => key x =? i) l.
Proof.
  intros Hne. induction l as [|a l IH]; simpl; [reflexivity|].
  destruct (Z.eqb_spec (key a) j) as [Hj|Hj]; simpl.
  - destruct (Z.eqb_spec (key a) i) as [Hi|_]; [congruence|exact IH].
  - destruct (key a =? i); [reflexivity|exact IH].
Qed.

(** X12.  Deleting an employee [E] touches nothing of another employee
    [E']: [E'] stays, and [E'.assignments], [E'.projects] and [E'.meetings]
    read as before. *)
Theorem X12_delete_employee_frame (s : Store) (E E' : Employee.t) :
  reachable s -> In E (employees s) -> In E' (employees s) ->
  Employee.id E' <> Employee.id E ->
  let s' := fst (delete_Employee (Employee.id E) s) in
  In E' (employees s') /\
  Employee_assignments s' E' = Employee_assignments s E' /\
  Employee_projects s' E' = Employee_projects s E' /\
  Employee_meetings s' E' = Employee_meetings s E'.
Proof.
  intros Hr HE HE' Hne. apply reachable_consistent in Hr.
  rewrite (delete_Employee_ok s E Hr HE). cbn [fst].
  assert (Hassign :
    filter (fun a => holds (Assignment.employee_id a) (Employee.id E'))
      (filter (fun a => negb (holds (Assignment.employee_id a) (Employee.id E)))
         (assignments s)) =
    filter (fun a => holds (Assignment.employee_id a) (Employee.id E'))
      (assignments s)).
  { rewrite filter_filter. apply filter_ext. intros a.
    destruct (Assignment.employee_id a) as [x|]; simpl; [|reflexivity].
    destruct (Z.eqb_spec x (Employee.id E')) as [->|]; [|apply andb_false_r].
    destruct (Z.eqb_spec (Employee.id E') (Employee.id E)); [contradiction|].
    reflexivity. }
  split; [|split; [|split]].
  - cbn [employees]. apply filter_In. split; [exact HE'|].
    apply negb_true_iff, Z.eqb_neq. exact Hne.
  - unfold Employee_assignments. cbn [assignments]. exact Hassign.
  - unfold Employee_projects, Employee_assignments. cbn [assignments].
    rewrite Hassign. reflexivity.
  - unfold Employee_meetings. cbn [employees_meetings].
    apply (flat_map_filter_skip
             (fun r => if fst r =? Employee.id E'
                       then match get_meeting s (snd r) with
                            | Some M => [M]
                            | None => []
                            end
                       else [])).
    intros r Hf. apply negb_false_iff, Z.eqb_eq in Hf. rewrite Hf.
    destruct (Z.eqb_spec (Employee.id E) (Employee.id E')); [congruence|reflexivity].
Qed.

Lemma X12_delete_employee_frame_witness :
  let office2 := fst (add_Employee (Some "Jane Roe") None busy_office) in
  let s' := fst (delete_Employee 2 office2) in
  In john (employees s') /\
  Employee_assignments s' john = Employee_assignments office2 john /\
  Employee_projects s' john = Employee_projects office2 john /\
  Employee_meetings s' john = Employee_meetings office2 john.
Proof.
  apply (X12_delete_employee_frame
           (fst (add_Employee (Some "Jane Roe") None busy_office))
           (Employee.mk 2 (Some "Jane Roe") None) john).
  - apply (reachable_step busy_office (AddEmployee (Some "Jane Roe") None)).
    exact busy_office_reachable.
  - vm_compute. right. left. reflexivity.
  - vm_compute. left. reflexivity.
  - vm_compute. discriminate.
Defined.

Lemma other_than_project (P : Project.t) (entry : option Project.t) :
  other_than P entry =
  negb (match entry with
        | Some P' => Project.id P' =? Project.id P
        | None => false
        end).
Proof. destruct entry; reflexivity. Qed.

(** X13.  Deleting a project [P] takes it out of the [projects] view of
    every employee and leaves the rest of each view as it was, in order. *)
Theorem X13_delete_project_views (s : Store) (P : Project.t) (E : Employee.t) :
  reachable s -> In P (projects s) -> In E (employees s) ->
  let s' := fst (delete_Project (Project.id P) s) in
  Employee_projects s' E = filter (other_than P) (Employee_projects s E) /\
  ~ In (Some P) (Employee_projects s' E).
Proof.
  intros Hr HP HE. apply reachable_consistent in Hr.
  rewrite (delete_Project_ok s P Hr HP). cbn [fst].
  assert (Hview :
    Employee_projects
      (mkStore (employees s) (meetings s)
         (filter (fun x => negb (Project.id x =? Project.id P)) (projects s))
         (filter (fun a => negb (holds (Assignment.project_id a) (Project.id P)))
            (assignments s))
         (employees_meetings s)) E =
    filter (other_than P) (Employee_projects s E)).
  { unfold Employee_projects, Employee_assignments. cbn [assignments].
    rewrite filter_map_swap, !filter_filter.
    rewrite (filter_ext_in
               (fun x => holds (Assignment.employee_id x) (Employee.id E)
                         && other_than P (Assignment_project s x))
               (fun x => negb (holds (Assignment.project_id x) (Project.id P))
                         && holds (Assignment.employee_id x) (Employee.id E))).
    - apply map_ext_in. intros a Ha. apply filter_In in Ha. destruct Ha as [_ Ha].
      apply andb_true_iff in Ha. destruct Ha as [Ha _].
      unfold Assignment_project.
      destruct (Assignment.project_id a) as [q|]; [|reflexivity].
      simpl in Ha. apply negb_true_iff, Z.eqb_neq in Ha.
      unfold get_project. cbn [projects]. apply find_filter_other. exact Ha.
    - intros a Ha. rewrite other_than_project, (project_is s P a Hr Ha).
      apply andb_comm. }
  split; [exact Hview|].
  rewrite Hview. intros Hin. apply filter_In in Hin. destruct Hin as [_ Hin].
  simpl in Hin. rewrite Z.eqb_refl in Hin. discriminate Hin.
Qed.

Lemma X13_delete_project_views_witness :
  let s' := fst (delete_Project 1 busy_office) in
  Employee_projects s' john =
    filter (other_than kickoff) (Employee_projects busy_office john) /\
  ~ In (Some kickoff) (Employee_projects s' john).
Proof.
  apply (X13_delete_project_views busy_office kickoff john).
  - exact busy_office_reachable.
  - vm_compute. left. reflexivity.
  - vm_compute. left. reflexivity.
Defined.

(** ** Adding a row and deleting it again *)

Lemma filter_out_new {A : Type} (key : A -> Z) (l : list A) (x : A) :
  ~ In (key x) (map key l) ->
  filter (fun y => negb (key y =? key x)) (l ++ [x]) = l.
Proof.
  intros Hnew. rewrite filter_app. cbn [filter]. rewrite Z.eqb_refl.
  cbn [negb]. rewrite app_nil_r. apply filter_all. intros y Hy.
  apply negb_true_iff, Z.eqb_neq. intros Heq. apply Hnew.
  rewrite <- Heq. apply in_map. exact Hy.
Qed.

Lemma check_budget (b : option Z) :
  check_integer Project.c.budget b =
  match b with
  | Some x => if (- 2 ^ 63 <=? x) && (x <? 2 ^ 63) then None else Some OverflowError
  | None => None
  end.
Proof. destruct b; reflexivity. Qed.

Lemma check_budget_in_range (b : option Z) :
  (forall x, b = Some x -> - 2 ^ 63 <= x < 2 ^ 63) ->
  check_integer Project.c.budget b = None.
Proof.
  intros H. rewrite check_budget. destruct b as [x|]; [|reflexivity].
  specialize (H x eq_refl).
  destruct (Z.leb_spec (- 2 ^ 63) x); [|lia].
  destruct (Z.ltb_spec x (2 ^ 63)); [reflexivity|lia].
Qed.

(** X14.  In a reachable state, adding an employee, a meeting or a project
    (its budget, if given, within the signed 64-bit range of [db.Integer])
    and deleting it straight away gives back the store as it was: the new
    row has a fresh [id], so the delete finds nothing else to remove.  A
    project whose budget is outside that range is not added: the attempt
    fails with [OverflowError] and the store stays as it was. *)
Theorem X14_add_then_delete (s : Store) :
  reachable s ->
  (forall n h,
     delete_Employee (next_id (employee_ids s)) (fst (add_Employee n h s)) =
     (s, None)) /\
  (forall t st l,
     delete_Meeting (next_id (meeting_ids s)) (fst (add_Meeting t st l s)) =
     (s, None)) /\
  (forall t b,
     (forall x, b = Some x -> - 2 ^ 63 <= x < 2 ^ 63) ->
     delete_Project (next_id (project_ids s)) (fst (add_Project t b s)) =
     (s, None)) /\
  (forall t x,
     ~ (- 2 ^ 63 <= x < 2 ^ 63) ->
     add_Project t (Some x) s = (s, Some OverflowError)).
Proof.
  intros Hr. pose proof (reachable_consistent s Hr) as Hs.
  split; [|split; [|split]].
  - intros n h.
    set (E := Employee.mk (next_id (employee_ids s)) n h).
    change (fst (add_Employee n h s)) with (set_employees s (employees s ++ [E])).
    assert (Hs1 : consistent (set_employees s (employees s ++ [E]))).
    { apply (perform_consistent (AddEmployee n h) s Hs). }
    assert (HE : In E (employees (set_employees s (employees s ++ [E])))).
    { cbn [employees set_employees]. apply in_or_app. right. left. reflexivity. }
    change (next_id (employee_ids s)) with (Employee.id E).
    rewrite (delete_Employee_ok _ E Hs1 HE).
    cbn [employees meetings projects assignments employees_meetings set_employees].
    rewrite (filter_out_new Employee.id (employees s) E) by apply next_id_fresh.
    rewrite (filter_all _ (assignments s)).
    2:{ intros a Ha. apply negb_true_iff.
        destruct (holds (Assignment.employee_id a) (Employee.id E)) eqn:Hh;
          [|reflexivity].
        apply holds_Some in Hh. exfalso.
        apply (next_id_fresh (employee_ids s)).
        exact (fk_assignments_employee_id_employees s Hs a _ Ha Hh). }
    rewrite (filter_all _ (employees_meetings s)).
    2:{ intros r Hin. apply negb_true_iff, Z.eqb_neq. intros Heq.
        apply (next_id_fresh (employee_ids s)).
        pose proof (fk_employees_meetings_employee_id_employees s Hs r Hin) as H.
        rewrite Heq in H. exact H. }
    destruct s; reflexivity.
  - intros t st l.
    set (M := Meeting.mk (next_id (meeting_ids s)) t st l).
    change (fst (add_Meeting t st l s)) with (set_meetings s (meetings s ++ [M])).
    assert (Hs1 : consistent (set_meetings s (meetings s ++ [M]))).
    { apply (perform_consistent (AddMeeting t st l) s Hs). }
    assert (HM : In M (meetings (set_meetings s (meetings s ++ [M])))).
    { cbn [meetings set_meetings]. apply in_or_app. right. left. reflexivity. }
    change (next_id (meeting_ids s)) with (Meeting.id M).
    rewrite (delete_Meeting_ok _ M Hs1 HM).
    cbn [employees meetings projects assignments employees_meetings set_meetings].
    rewrite (filter_out_new Meeting.id (meetings s) M) by apply next_id_fresh.
    rewrite (filter_all _ (employees_meetings s)).
    2:{ intros r Hin. apply negb_true_iff, Z.eqb_neq. intros Heq.
        apply (next_id_fresh (meeting_ids s)).
        pose proof (fk_employees_meetings_meeting_id_meetings s Hs r Hin) as H.
        rewrite Heq in H. exact H. }
    destruct s; reflexivity.
  - intros t b Hb.
    set (P := Project.mk (next_id (project_ids s)) t b).
    assert (Hadd : add_Project t b s = (set_projects s (projects s ++ [P]), None)).
    { unfold add_Project, commit. cbn [execute_all execute].
      rewrite (check_budget_in_range b Hb). reflexivity. }
    rewrite Hadd. cbn [fst].
    assert (Hs1 : consistent (set_projects s (projects s ++ [P]))).
    { replace (set_projects s (projects s ++ [P])) with
        (fst (perform (AddProject t b) s)).
      - apply perform_consistent. exact Hs.
      - simpl. rewrite Hadd. reflexivity. }
    assert (HP : In P (projects (set_projects s (projects s ++ [P])))).
    { cbn [projects set_projects]. apply in_or_app. right. left. reflexivity. }
    change (next_id (project_ids s)) with (Project.id P).
    rewrite (delete_Project_ok _ P Hs1 HP).
    cbn [employees meetings projects assignments employees_meetings set_projects].
    rewrite (filter_out_new Project.id (projects s) P) by apply next_id_fresh.
    rewrite (filter_all _ (assignments s)).
    2:{ intros a Ha. apply negb_true_iff.
        destruct (holds (Assignment.project_id a) (Project.id P)) eqn:Hh;
          [|reflexivity].
        apply holds_Some in Hh. exfalso.
        apply (next_id_fresh (project_ids s)).
        exact (fk_assignments_project_id_projects s Hs a _ Ha Hh). }
    destruct s; reflexivity.
  - intros t x Hx. unfold add_Project, commit. cbn [execute_all execute].
    rewrite check_budget.
    destruct (Z.leb_spec (- 2 ^ 63) x); destruct (Z.ltb_spec x (2 ^ 63));
      try reflexivity.
    exfalso. apply Hx. lia.
Qed.

Lemma X14_add_then_delete_witness :
  delete_Project 2 (fst (add_Project (Some "Audit") (Some 2500) busy_office)) =
    (busy_office, None) /\
  add_Project (Some "Audit") (Some (2 ^ 63)) busy_office =
    (busy_office, Some OverflowError).
Proof.
  destruct (X14_add_then_delete busy_office busy_office_reachable)
    as (_ & _ & Hin & Hout).
  split.
  - apply (Hin (Some "Audit") (Some 2500)). intros x Hx.
    injection Hx as <-. lia.
  - apply (Hout (Some "Audit") (2 ^ 63)). lia.
Defined.

(** ** The names of the foreign-key constraints *)

Lemma append_length (a b : string) :
  String.length (a ++ b)%string = (String.length a + String.length b)%nat.
Proof. induction a as [|ch a IH]; simpl; [reflexivity|]. rewrite IH. reflexivity. Qed.

Lemma append_inj_l (a x y : string) :
  (a ++ x)%string = (a ++ y)%string -> x = y.
Proof.
  induction a as [|ch a IH]; simpl; intros H; [exact H|].
  injection H as H. apply IH. exact H.
Qed.

Lemma append_inj_r (x y b : string) :
  (x ++ b)%string = (y ++ b)%string -> x = y.
Proof.
  revert y. induction x as [|ch x IH]; intros [|ch' y] H; simpl in H.
  - reflexivity.
  - exfalso. apply (f_equal String.length) in H. simpl in H.
    rewrite append_length in H. lia.
  - exfalso. apply (f_equal String.length) in H. simpl in H.
    rewrite append_length in H. lia.
  - injection H as -> H. f_equal. apply IH. exact H.
Qed.

(** X15.  Under the naming convention of the metadata the four foreign keys
    of the schema get four different constraint names, the columns without
    a foreign key get none, and in general two columns of one table that
    refer to the same table get the same name only if they are the same
    column. *)
Theorem X15_fk_constraint_names :
  filter (fun o => match o with Some _ => true | None => false end)
    fk_constraint_names =
    [Some "fk_employees_meetings_employee_id_employees";
     Some "fk_employees_meetings_meeting_id_meetings";
     Some "fk_assignments_employee_id_employees";
     Some "fk_assignments_project_id_projects"] /\
  NoDup (filter (fun o => match o with Some _ => true | None => false end)
           fk_constraint_names) /\
  forall table referred column column',
    expand metadata.naming_convention_fk table column referred =
    expand metadata.naming_convention_fk table column' referred ->
    column = column'.
Proof.
  split; [reflexivity|]. split.
  - change (NoDup [Some "fk_employees_meetings_employee_id_employees";
                   Some "fk_employees_meetings_meeting_id_meetings";
                   Some "fk_assignments_employee_id_employees";
                   Some "fk_assignments_project_id_projects"]).
    repeat constructor; simpl; intuition discriminate.
  - intros table referred column column' H.
    unfold expand in H. cbn [fold_right metadata.naming_convention_fk] in H.
    cbn [String.append] in H. injection H as H.
    apply append_inj_l in H. cbn [String.append] in H. injection H as H.
    apply append_inj_r in H. exact H.
Qed.

Lemma X15_fk_constraint_names_witness :
  expand metadata.naming_convention_fk "assignments" "employee_id" "employees" =
    "fk_assignments_employee_id_employees" /\
  "employee_id" = "employee_id".
Proof.
  split; [reflexivity|].
  destruct X15_fk_constraint_names as (_ & _ & H).
  apply (H "assignments" "employees" "employee_id" "employee_id").
  reflexivity.
Defined.
